(** * mathstroScheduler: the scheduling search, embedded and verified

    A shallow embedding of [mathstro_scheduler] (session.py,
    instructor_pref.py, scheduler_utils.py, scheduler.py).

    Conventions of the embedding.
    - A Python [str] is a [string]; its characters are code points below
      256.  Python [int]s are [Z]; list positions and the preference
      indices drawn from [range(len(...))] are [nat].
    - A raised exception is a value of [exn]; a computation that may raise
      returns [result A].  One constructor per raise site that the
      modelled code can reach.
    - [random.shuffle] reads and advances the process-wide generator.  The
      generator state is passed explicitly ([rng]), and the shuffle itself
      is a parameter of the development, assumed only to return a
      permutation of its argument.
    - [scheduler] reads two files and writes one; the file system is a
      function from paths to the lines of a file, and the text written to
      [output_schedules.txt] is the value returned. *)

From stdpp Require Import base list sets strings pretty.
From Stdlib Require Import ZArith Lia Ascii.

Open Scope string_scope.
Open Scope Z_scope.

(** ** Exceptions and the error monad *)

Inductive exn : Type :=
| ValueError_unpack         (* wrong number of values in a tuple unpacking *)
| ValueError_int            (* invalid literal for int() with base 10 *)
| ValueError_time_range     (* "Time code is outside the allowed range (7:00 AM to 7:00 PM)." *)
| ValueError_week_day (week_day : string)  (* "Invalid week day: ..." *)
| IndexError                (* list index out of range *)
| TypeError_none_index      (* list indices must be integers or slices, not NoneType *)
| TypeError_none_iter.      (* 'NoneType' object is not iterable *)

Inductive result (A : Type) : Type :=
| Ok (a : A)
| Raise (e : exn).

Arguments Ok {A} a.
Arguments Raise {A} e.

(** Sequencing: the first exception raised ends the computation.  The
    notation [x ← r; k] is stdpp's, through these two instances. *)
Definition bind {A B : Type} (k : A -> result B) (r : result A) : result B :=
  match r with
  | Ok a => k a
  | Raise e => Raise e
  end.

#[global] Instance result_ret : MRet result := @Ok.
#[global] Instance result_bind : MBind result := @bind.

(** [xs[i]] for a non-negative [i]. *)
Definition index {A : Type} (xs : list A) (i : nat) : result A :=
  match xs !! i with
  | Some x => Ok x
  | None => Raise IndexError
  end.

(** ** Python string primitives used by the code *)

Definition code_point (a : ascii) : N := N_of_ascii a.

(** [str.isspace] on one character, for code points below 256. *)
Definition is_space (a : ascii) : bool :=
  let n := code_point a in
  (((9 <=? n) && (n <=? 13)) || ((28 <=? n) && (n <=? 32))
   || (n =? 133) || (n =? 160))%N.

Fixpoint lstrip (s : string) : string :=
  match s with
  | String a rest => if is_space a then lstrip rest else s
  | EmptyString => EmptyString
  end.

Definition rstrip (s : string) : string := String.rev (lstrip (String.rev s)).

(** [s.strip()] *)
Definition strip (s : string) : string := rstrip (lstrip s).

(** [s.split(sep)] for a non-empty [sep]: [skip] counts the characters of
    a separator found earlier that are still to be passed over, [cur] is
    the field being read. *)
Fixpoint split_from (sep : string) (skip : nat) (cur : string) (s : string)
  : list string :=
  match s with
  | EmptyString => [cur]
  | String a rest =>
      match skip with
      | S k => split_from sep k cur rest
      | O =>
          if String.prefix sep s
          then cur :: split_from sep (String.length sep - 1) "" rest
          else split_from sep 0 (cur +:+ String a "") rest
      end
  end.

Definition split (sep s : string) : list string := split_from sep 0 "" s.

Definition is_digit (a : ascii) : bool :=
  ((48 <=? code_point a) && (code_point a <=? 57))%N.

Definition digit_value (a : ascii) : Z := Z.of_N (code_point a) - 48.

(** The digits of a base-10 literal: at least one digit, and an underscore
    only between two digits.  [after_digit] tells whether the character
    just read was a digit. *)
Fixpoint int_digits (s : string) (acc : Z) (after_digit : bool) : option Z :=
  match s with
  | EmptyString => if after_digit then Some acc else None
  | String a rest =>
      if is_digit a then int_digits rest (10 * acc + digit_value a) true
      else if Ascii.eqb a "_"%char && after_digit then int_digits rest acc false
      else None
  end.

(** [int(s)]: surrounding whitespace, an optional sign, the digits.  (The
    interpreter's limit on the length of a literal is not modelled.) *)
Definition int (s : string) : result Z :=
  let digits :=
    match strip s with
    | String "+"%char rest => int_digits rest 0 false
    | String "-"%char rest => Z.opp <$> int_digits rest 0 false
    | t => int_digits t 0 false
    end in
  match digits with
  | Some n => Ok n
  | None => Raise ValueError_int
  end.

(** ** The time-slot encoder (session.py, instructor_pref.py) *)

(** [days_mapping.get(week_day, -1)] *)
Definition days_mapping_get (week_day : string) : Z :=
  if String.eqb week_day "Monday" then 0
  else if String.eqb week_day "Tuesday" then 1
  else if String.eqb week_day "Wednesday" then 2
  else if String.eqb week_day "Thursday" then 3
  else if String.eqb week_day "Friday" then 4
  else if String.eqb week_day "Saturday" then 5
  else if String.eqb week_day "Sunday" then 6
  else -1.

(** [hour, period = time_code.split(" ")] followed by
    [hour = int(hour.split(":")[0])]. *)
Definition parse_time_code (time_code : string) : result (Z * string) :=
  match split " " time_code with
  | [hour; period] =>
      h ← int (hd "" (split ":" hour));
      Ok (h, period)
  | _ => Raise ValueError_unpack
  end.

(** The conversion to the 24-hour clock. *)
Definition to_24_hour (hour : Z) (period : string) : Z :=
  if String.eqb period "PM" && negb (hour =? 12) then hour + 12
  else if String.eqb period "AM" && (hour =? 12) then 0
  else hour.

(** [f"{day_code}_{hour_code}"] *)
Definition format_code (day_code hour_code : Z) : string :=
  pretty day_code +:+ "_" +:+ pretty hour_code.

(** [Session.remap_time_code] and [InstructorPref.remap_time_code]: the two
    methods have the same body (the second rebinds [week_day] where the
    first introduces [_week_day]). *)
Definition remap_time_code (time_code week_day : string) : result string :=
  let _week_day := strip week_day in
  '(hour, period) ← parse_time_code time_code;
  let hour := to_24_hour hour period in
  if (hour <? 7) || (hour >? 19) then Raise ValueError_time_range
  else
    let hour_code := hour - 7 in
    let day_code := days_mapping_get _week_day in
    if day_code =? -1 then Raise (ValueError_week_day _week_day)
    else Ok (format_code day_code hour_code).

(** The hour-offset component of a slot code: the integer written after
    the underscore. *)
Definition slot_hour_offset (code : string) : result Z :=
  match split "_" code with
  | [_; hour_code] => int hour_code
  | _ => Raise ValueError_unpack
  end.

(** ** The two record classes *)

(** [Session]: the attributes [instructor_pref] and [coordinates] are set
    to [None] by the constructor and never read; they are left out. *)
Module Session.
Record t : Type := mk {
  week_day : string;
  start_time_code : string;
  end_time_code : string;
  encoded_start_time_code : string
}.

(** [Session.__init__] *)
Definition init (week_day start_time_code end_time_code : string) : result t :=
  code ← remap_time_code start_time_code week_day;
  Ok (mk week_day start_time_code end_time_code code).
End Session.

Module InstructorPref.
Record t : Type := mk {
  name : string;
  uid : string;
  week_day : string;
  start_time_code : string;
  end_time_code : string;
  encoded_start_time_code : string
}.

(** [InstructorPref.__init__] *)
Definition init (uid name week_day start_time_code end_time_code : string)
  : result t :=
  code ← remap_time_code start_time_code week_day;
  Ok (mk name uid week_day start_time_code end_time_code code).
End InstructorPref.

(** ** Catalog loading (scheduler_utils.py) *)

Definition tab : string := String "009"%char "".
Definition newline : string := String "010"%char "".

(** The file system: the lines of the file at a path, [None] when the file
    cannot be opened. *)
Definition files : Type := string -> option (list string).

(** The statements of the loop body after the blank-line test. *)
Definition session_of_line (line : string) : result Session.t :=
  match split tab line with
  | [day; time_range] =>
      match split " - " time_range with
      | [start_time; end_time] => Session.init day start_time end_time
      | _ => Raise ValueError_unpack
      end
  | _ => Raise ValueError_unpack
  end.

(** The [for line in file] loop; an exception leaves the loop and the
    [except Exception] handler returns what was read so far. *)
Fixpoint session_lines (lines : list string) (sessions : list Session.t)
  : list Session.t :=
  match lines with
  | [] => sessions
  | line :: rest =>
      let line := strip line in
      if String.eqb line "" then session_lines rest sessions
      else
        match session_of_line line with
        | Ok session => session_lines rest (sessions ++ [session])
        | Raise _ => sessions
        end
  end.

Definition parse_inputSESSION_text (fs : files) (file_path : string)
  : list Session.t :=
  match fs file_path with
  | Some lines => session_lines lines []
  | None => []
  end.

Definition instructor_pref_of_line (line : string) : result InstructorPref.t :=
  match split tab line with
  | [uid; name; day; time_range] =>
      match split " - " time_range with
      | [start_time; end_time] =>
          InstructorPref.init uid name day start_time end_time
      | _ => Raise ValueError_unpack
      end
  | _ => Raise ValueError_unpack
  end.

Fixpoint instructor_pref_lines (lines : list string)
    (instructor_prefs : list InstructorPref.t) : list InstructorPref.t :=
  match lines with
  | [] => instructor_prefs
  | line :: rest =>
      let line := strip line in
      if String.eqb line "" then instructor_pref_lines rest instructor_prefs
      else
        match instructor_pref_of_line line with
        | Ok instructor_pref =>
            instructor_pref_lines rest (instructor_prefs ++ [instructor_pref])
        | Raise _ => instructor_prefs
        end
  end.

Definition parse_inputINSTRUCTOR_PREF_text (fs : files) (file_path : string)
  : list InstructorPref.t :=
  match fs file_path with
  | Some lines => instructor_pref_lines lines []
  | None => []
  end.

(** ** Candidate generation (scheduler.py) *)

(** A candidate: one entry per session, a preference index or [None]. *)
Abbreviation candidate := (list (option nat)).

(** [try_assign_instructor]: the instructor's [uid] when the two encoded
    start times are equal, [None] otherwise. *)
Definition try_assign_instructor (instructor_pref : InstructorPref.t)
    (session : Session.t) : option string :=
  if String.eqb (InstructorPref.encoded_start_time_code instructor_pref)
                (Session.encoded_start_time_code session)
  then Some (InstructorPref.uid instructor_pref)
  else None.

(** Truth value of what [try_assign_instructor] returns: [None] and the
    empty string are false. *)
Definition truthy (success : option string) : bool :=
  match success with
  | Some s => negb (String.eqb s "")
  | None => false
  end.

(** [idx in session_assignments] *)
Definition contains (session_assignments : candidate) (idx : nat) : bool :=
  bool_decide (Some idx ∈ session_assignments).

(** The inner loop [for idx in list_of_randomized_instructor_pref_indices]:
    [Some idx] when it leaves through [break], [None] when it runs to the
    end ([_assigned] still false). *)
Fixpoint scan_instructor_prefs (list_of_instructor_prefs : list InstructorPref.t)
    (session : Session.t) (session_assignments : candidate)
    (indices : list nat) : result (option nat) :=
  match indices with
  | [] => Ok None
  | idx :: rest =>
      instructor_pref ← index list_of_instructor_prefs idx;
      let success := try_assign_instructor instructor_pref session in
      if truthy success && negb (contains session_assignments idx)
      then Ok (Some idx)
      else scan_instructor_prefs list_of_instructor_prefs session
             session_assignments rest
  end.

(** The outer loop [for session in list_of_session], with the list
    [session_assignments] built so far. *)
Fixpoint assign_sessions (list_of_instructor_prefs : list InstructorPref.t)
    (indices : list nat) (list_of_session : list Session.t)
    (session_assignments : candidate) : result candidate :=
  match list_of_session with
  | [] => Ok session_assignments
  | session :: rest =>
      entry ← scan_instructor_prefs list_of_instructor_prefs session
                session_assignments indices;
      assign_sessions list_of_instructor_prefs indices rest
        (session_assignments ++ [entry])
  end.

(** ** Scoring and retention of the best candidate *)

(** The body of the scoring loop of [update_best_session_assignment] at
    position [idx] holding [instructor_idx]. *)
Definition score_entry (list_of_instructor_prefs : list InstructorPref.t)
    (candidate_session_assignments : candidate) (idx : nat)
    (instructor_idx : option nat) (score : Z) : result Z :=
  match instructor_idx with
  | None => Ok (score - 5)
  | Some instructor_idx =>
      if (0 <? idx)%nat then
        prev_idx ← index candidate_session_assignments (idx - 1);
        match prev_idx with
        | Some prev_idx =>
            prev_instructor_pref ← index list_of_instructor_prefs prev_idx;
            curr_instructor_pref ← index list_of_instructor_prefs instructor_idx;
            if String.eqb (InstructorPref.uid curr_instructor_pref)
                          (InstructorPref.uid prev_instructor_pref)
               && String.eqb (InstructorPref.week_day curr_instructor_pref)
                             (InstructorPref.week_day prev_instructor_pref)
            then Ok (score + 2)
            else Ok score
        | None => Ok score
        end
      else Ok score
  end.

(** [for idx, instructor_idx in enumerate(candidate_session_assignments)],
    from position [idx] on. *)
Fixpoint score_from (list_of_instructor_prefs : list InstructorPref.t)
    (candidate_session_assignments : candidate) (idx : nat)
    (remaining : candidate) (score : Z) : result Z :=
  match remaining with
  | [] => Ok score
  | instructor_idx :: rest =>
      score ← score_entry list_of_instructor_prefs
                candidate_session_assignments idx instructor_idx score;
      score_from list_of_instructor_prefs candidate_session_assignments
        (S idx) rest score
  end.

(** Lines 118-131 of [update_best_session_assignment]: the score of a
    candidate. *)
Definition candidate_score (list_of_instructor_prefs : list InstructorPref.t)
    (candidate_session_assignments : candidate) : result Z :=
  score_from list_of_instructor_prefs candidate_session_assignments 0
    candidate_session_assignments 0.

(** [update_best_session_assignment]; the catalog it reads as a global is
    its first argument here. *)
Definition update_best_session_assignment
    (list_of_instructor_prefs : list InstructorPref.t)
    (best_session_assignments : option candidate) (best_score : Z)
    (candidate_session_assignments : candidate)
  : result (option candidate * Z) :=
  score ← candidate_score list_of_instructor_prefs candidate_session_assignments;
  if (score >? best_score) || bool_decide (best_session_assignments = None)
  then Ok (Some candidate_session_assignments, score)
  else Ok (best_session_assignments, best_score).

(** ** Projection of the retained candidate *)

Definition format_row (session : Session.t) (instructor_pref : InstructorPref.t)
  : string :=
  Session.week_day session +:+ tab
  +:+ Session.start_time_code session +:+ " - "
  +:+ Session.end_time_code session +:+ tab
  +:+ InstructorPref.uid instructor_pref +:+ tab
  +:+ InstructorPref.name instructor_pref +:+ newline.

(** The loop of [map_assignments] from position [idx] on. *)
Fixpoint map_from (list_of_session : list Session.t)
    (list_of_instructor_prefs : list InstructorPref.t) (idx : nat)
    (remaining : candidate) (_mappings : string) : result string :=
  match remaining with
  | [] => Ok _mappings
  | instructor_idx :: rest =>
      _current_session ← index list_of_session idx;
      _current_instructor_pref ←
        match instructor_idx with
        | Some i => index list_of_instructor_prefs i
        | None => Raise TypeError_none_index
        end;
      map_from list_of_session list_of_instructor_prefs (S idx) rest
        (_mappings +:+ format_row _current_session _current_instructor_pref)
  end.

(** [map_assignments]; [enumerate(None)] raises. *)
Definition map_assignments (list_of_session : list Session.t)
    (list_of_instructor_prefs : list InstructorPref.t)
    (best_session_assignments : option candidate) : result string :=
  match best_session_assignments with
  | Some best => map_from list_of_session list_of_instructor_prefs 0 best ""
  | None => Raise TypeError_none_iter
  end.

(** ** The scoring rule as the specification words it *)

(** Number of unfilled positions. *)
Definition unfilled_count (c : candidate) : nat :=
  length (filter (fun e => e = None) c).

(** Position [idx] is rewarded: [idx > 0], positions [idx] and [idx - 1]
    are filled, and the two preferences they reference have the same
    instructor and the same weekday. *)
Definition rewarded (prefs : list InstructorPref.t) (c : candidate)
    (idx : nat) : bool :=
  (0 <? idx)%nat &&
  match c !! idx, c !! (idx - 1)%nat with
  | Some (Some i), Some (Some j) =>
      match prefs !! i, prefs !! j with
      | Some curr, Some prev =>
          String.eqb (InstructorPref.uid curr) (InstructorPref.uid prev)
          && String.eqb (InstructorPref.week_day curr)
                        (InstructorPref.week_day prev)
      | _, _ => false
      end
  | _, _ => false
  end.

Definition rewarded_count (prefs : list InstructorPref.t) (c : candidate) : nat :=
  length (filter (fun idx => rewarded prefs c idx = true) (seq 0 (length c))).

(** Every filled entry of a candidate is a position of the catalog. *)
Definition in_catalog (prefs : list InstructorPref.t) (c : candidate) : Prop :=
  ∀ i, Some i ∈ c → (i < length prefs)%nat.

(** The preference indices of the filled entries, in order. *)
Definition filled (c : candidate) : list nat := omap id c.

(** What a recorded entry guarantees about the session it stands for: a
    filled entry is a position of the catalog whose preference has the
    session's slot code and a non-empty [uid]. *)
Definition entry_for (prefs : list InstructorPref.t) (session : Session.t)
    (entry : option nat) : Prop :=
  match entry with
  | Some idx =>
      ∃ p, prefs !! idx = Some p
           ∧ InstructorPref.encoded_start_time_code p
             = Session.encoded_start_time_code session
           ∧ InstructorPref.uid p ≠ ""
  | None => True
  end.

(** ** Concrete catalogs and a concrete shuffle *)

(** One outcome [random.shuffle] can have: the list is left as it is.  The
    generator state is trivial. *)
Definition keep_order (l : list nat) (g : unit) : list nat * unit := (l, g).

(** Another one: the list is reversed; the state counts the calls. *)
Definition reverse_order (l : list nat) (g : nat) : list nat * nat :=
  (reverse l, S g).

Definition monday_9 : Session.t :=
  Session.mk "Monday" "9:00 AM" "10:00 AM" "0_2".
Definition monday_10 : Session.t :=
  Session.mk "Monday" "10:00 AM" "11:00 AM" "0_3".

Definition pref_a_9 : InstructorPref.t :=
  InstructorPref.mk "A" "I1" "Monday" "9:00 AM" "10:00 AM" "0_2".
Definition pref_a_10 : InstructorPref.t :=
  InstructorPref.mk "A" "I1" "Monday" "10:00 AM" "11:00 AM" "0_3".
Definition pref_b_9 : InstructorPref.t :=
  InstructorPref.mk "B" "I2" "Monday" "9:00 AM" "10:00 AM" "0_2".
(** A preference whose [uid] is the empty string. *)
Definition pref_anonymous_9 : InstructorPref.t :=
  InstructorPref.mk "Nobody" "" "Monday" "9:00 AM" "10:00 AM" "0_2".

(** ** Generation, search loop and entry point, over a random source *)

Section Search.

(** The state of the random generator and [random.shuffle]: the shuffled
    list and the next state. *)
Variable rng : Type.
Variable shuffle : list nat -> rng -> list nat * rng.

(** [calculate_session_assignments]; [replicates] is received and not
    read. *)
Definition calculate_session_assignments (list_of_session : list Session.t)
    (list_of_instructor_prefs : list InstructorPref.t) (replicates : Z)
    (g : rng) : result (candidate * rng) :=
  let '(list_of_randomized_instructor_pref_indices, g) :=
    shuffle (seq 0 (length list_of_instructor_prefs)) g in
  session_assignments ←
    assign_sessions list_of_instructor_prefs
      list_of_randomized_instructor_pref_indices list_of_session [];
  Ok (session_assignments, g).

(** The retained best, as the two variables of [scheduler]. *)
Definition best : Type := option candidate * Z.

(** [best_score = 0; best_session_assignments = None] *)
Definition initial_best : best := (None, 0).

(** One pass through the body of the epoch loop. *)
Definition epoch (list_of_session : list Session.t)
    (list_of_instructor_prefs : list InstructorPref.t) (replicates : Z)
    (b : best) (g : rng) : result (best * rng) :=
  '(candidate_session_assignments, g) ←
    calculate_session_assignments list_of_session list_of_instructor_prefs
      replicates g;
  b ← update_best_session_assignment list_of_instructor_prefs b.1 b.2
        candidate_session_assignments;
  Ok (b, g).

(** [n] passes. *)
Fixpoint epochs_from (list_of_session : list Session.t)
    (list_of_instructor_prefs : list InstructorPref.t) (replicates : Z)
    (n : nat) (b : best) (g : rng) : result (best * rng) :=
  match n with
  | O => Ok (b, g)
  | S n =>
      '(b, g) ← epoch list_of_session list_of_instructor_prefs replicates b g;
      epochs_from list_of_session list_of_instructor_prefs replicates n b g
  end.

(** [for epoch in range(epochs)], from the initial values. *)
Definition search (list_of_session : list Session.t)
    (list_of_instructor_prefs : list InstructorPref.t) (replicates : Z)
    (epochs : Z) (g : rng) : result (best * rng) :=
  epochs_from list_of_session list_of_instructor_prefs replicates
    (Z.to_nat epochs) initial_best g.

(** [scheduler]: the text written to [output_schedules.txt].  The
    diagnostic echo under [verbose] is not modelled. *)
Definition scheduler (epochs replicates max_attempts : Z)
    (session_file instructor_pref_file output_path : string)
    (verbose : bool) (fs : files) (g : rng) : result string :=
  let list_of_session := parse_inputSESSION_text fs session_file in
  let list_of_instructor_prefs :=
    parse_inputINSTRUCTOR_PREF_text fs instructor_pref_file in
  '(b, _) ← search list_of_session list_of_instructor_prefs replicates epochs g;
  map_assignments list_of_session list_of_instructor_prefs b.1.

End Search.

(** ** Predicates used to state further properties *)

(** The character [c] occurs in [s]. *)
Fixpoint has_char (c : ascii) (s : string) : bool :=
  match s with
  | EmptyString => false
  | String a rest => Ascii.eqb a c || has_char c rest
  end.

(** Every character of [s] is whitespace. *)
Fixpoint all_space (s : string) : bool :=
  match s with
  | EmptyString => true
  | String a rest => is_space a && all_space rest
  end.

(** [s] is empty or begins with a character that is not whitespace. *)
Definition no_leading_space (s : string) : Prop :=
  match s with
  | String a _ => is_space a = false
  | EmptyString => True
  end.

(** [s] is not empty and begins with a character that is not whitespace:
    what a line must begin with to keep its first field through [strip]. *)
Definition starts_line (s : string) : bool :=
  match s with
  | String a _ => negb (is_space a)
  | EmptyString => false
  end.

(** [s] is not empty and ends with a character that is not whitespace. *)
Definition ends_line (s : string) : bool := starts_line (String.rev s).

(** A field of a catalog line: no tab in it. *)
Definition plain_field (s : string) : bool := negb (has_char "009" s).

(** A clock field of a catalog line: no tab and no dash in it. *)
Definition clock_field (s : string) : bool :=
  negb (has_char "009" s) && negb (has_char "-" s).

(** The record a line of the session file stands for, if any: [None] for a
    blank line and for a line that cannot be read. *)
Definition session_record (line : string) : option Session.t :=
  if String.eqb (strip line) "" then None
  else match session_of_line (strip line) with
       | Ok session => Some session
       | Raise _ => None
       end.

Definition instructor_pref_record (line : string) : option InstructorPref.t :=
  if String.eqb (strip line) "" then None
  else match instructor_pref_of_line (strip line) with
       | Ok instructor_pref => Some instructor_pref
       | Raise _ => None
       end.

(** A line that ends the reading of its file: not blank, and reading it
    raises. *)
Definition session_line_fails (line : string) : Prop :=
  strip line ≠ "" ∧ ∃ e, session_of_line (strip line) = Raise e.

Definition instructor_pref_line_fails (line : string) : Prop :=
  strip line ≠ "" ∧ ∃ e, instructor_pref_of_line (strip line) = Raise e.

(** Preference [idx] can be given to [session] while the entries
    [assigned] are taken: it is eligible for the session and not among
    them. *)
Definition available (prefs : list InstructorPref.t) (session : Session.t)
    (assigned : candidate) (idx : nat) : Prop :=
  entry_for prefs session (Some idx) ∧ Some idx ∉ assigned.

(** The rows of an output, one after the other. *)
Definition join_rows (rows : list string) : string :=
  foldr String.append "" rows.

(** Two small catalog files, for the properties of loading at concrete
    inputs: a session file with a blank line, and a preference file. *)
Definition example_files : files :=
  λ path,
    if String.eqb path "sessions.txt" then
      Some ["Monday" +:+ tab +:+ "9:00 AM - 10:00 AM" +:+ newline;
            newline;
            "Monday" +:+ tab +:+ "10:00 AM - 11:00 AM" +:+ newline]
    else if String.eqb path "prefs.txt" then
      Some ["I1" +:+ tab +:+ "A" +:+ tab +:+ "Monday" +:+ tab
            +:+ "10:00 AM - 11:00 AM" +:+ newline;
            "I1" +:+ tab +:+ "A" +:+ tab +:+ "Monday" +:+ tab
            +:+ "9:00 AM - 10:00 AM" +:+ newline]
    else None.

(** * Properties *)

(** ** The time-slot encoder *)

(** The encoder, one case per way out of it. *)
Lemma remap_time_code_cases (time_code week_day : string) :
  remap_time_code time_code week_day =
  match parse_time_code time_code with
  | Ok (hour, period) =>
      let h := to_24_hour hour period in
      if (h <? 7) || (h >? 19) then Raise ValueError_time_range
      else if days_mapping_get (strip week_day) =? -1
           then Raise (ValueError_week_day (strip week_day))
           else Ok (format_code (days_mapping_get (strip week_day)) (h - 7))
  | Raise e => Raise e
  end.
Proof.
  unfold remap_time_code.
  destruct (parse_time_code time_code) as [[hour period]|e]; reflexivity.
Qed.

Lemma days_mapping_get_range (week_day : string) :
  days_mapping_get week_day = -1 ∨
  days_mapping_get week_day ∈ [0; 1; 2; 3; 4; 5; 6].
Proof.
  unfold days_mapping_get.
  repeat (match goal with |- context [if ?b then _ else _] => destruct b end;
          [right; rewrite !elem_of_cons; lia|]).
  by left.
Qed.

Lemma hour_code_cases (h : Z) :
  7 ≤ h ≤ 19 → h - 7 ∈ [0; 1; 2; 3; 4; 5; 6; 7; 8; 9; 10; 11; 12].
Proof.
  intros Hh. rewrite !elem_of_cons, elem_of_nil. lia.
Qed.

(** C3.  Which hours the encoder accepts.  Whenever the clock string
    parses, the encoder raises its out-of-range error exactly when the
    24-hour hour is below 7 or above 19; for an hour from 7 to 19 it goes
    on to the weekday and, for a known weekday, returns the code with
    hour offset [hour - 7].  At the boundary: "7:00 AM" gives offset 0,
    "7:00 PM" is accepted and gives offset 12, "6:00 AM" and "8:00 PM" are
    rejected as out of range, whatever the weekday. *)
Theorem remap_time_code_accepts_7_to_19 :
  (∀ time_code week_day,
     match parse_time_code time_code with
     | Ok (hour, period) =>
         let h := to_24_hour hour period in
         let d := days_mapping_get (strip week_day) in
         if (7 <=? h) && (h <=? 19) then
           if d =? -1
           then remap_time_code time_code week_day
                = Raise (ValueError_week_day (strip week_day))
           else remap_time_code time_code week_day
                = Ok (format_code d (h - 7))
         else remap_time_code time_code week_day = Raise ValueError_time_range
     | Raise e => remap_time_code time_code week_day = Raise e
     end)
  ∧ (∀ week_day,
       let d := days_mapping_get (strip week_day) in
       if d =? -1
       then remap_time_code "7:00 AM" week_day
            = Raise (ValueError_week_day (strip week_day))
            ∧ remap_time_code "7:00 PM" week_day
              = Raise (ValueError_week_day (strip week_day))
       else remap_time_code "7:00 AM" week_day = Ok (format_code d 0)
            ∧ remap_time_code "7:00 PM" week_day = Ok (format_code d 12))
  ∧ remap_time_code "7:00 AM" "Monday" = Ok "0_0"
  ∧ slot_hour_offset "0_0" = Ok 0
  ∧ remap_time_code "7:00 PM" "Monday" = Ok "0_12"
  ∧ slot_hour_offset "0_12" = Ok 12
  ∧ (∀ week_day, remap_time_code "6:00 AM" week_day = Raise ValueError_time_range)
  ∧ (∀ week_day, remap_time_code "8:00 PM" week_day = Raise ValueError_time_range).
Proof.
  split_and!; try reflexivity.
  - intros time_code week_day. rewrite remap_time_code_cases.
    destruct (parse_time_code time_code) as [[hour period]|e]; [|done].
    cbv zeta.
    destruct (Z.leb_spec 7 (to_24_hour hour period)) as [H7|H7];
      destruct (Z.leb_spec (to_24_hour hour period) 19) as [H19|H19];
      destruct (Z.ltb_spec (to_24_hour hour period) 7);
      destruct (Z.gtb_spec (to_24_hour hour period) 19);
      try lia; simpl;
      try destruct (days_mapping_get (strip week_day) =? -1); reflexivity.
  - intros week_day. cbv zeta. rewrite !remap_time_code_cases.
    change (parse_time_code "7:00 AM") with (Ok (7, "AM")).
    change (parse_time_code "7:00 PM") with (Ok (7, "PM")).
    cbv zeta. change (to_24_hour 7 "AM") with 7.
    change (to_24_hour 7 "PM") with 19.
    change ((7 <? 7) || (7 >? 19)) with false.
    change ((19 <? 7) || (19 >? 19)) with false.
    cbv iota.
    destruct (days_mapping_get (strip week_day) =? -1); done.
Qed.

(** C4, as the code has it.  Whenever encoding succeeds, the code
    returned is "day_hour" with a weekday index from 0 to 6 and an hour
    offset from 0 to 12: the offset 12 is the 7:00 PM start hour, which the
    range test lets through. *)
Theorem remap_time_code_hour_offset_range (time_code week_day code : string) :
  remap_time_code time_code week_day = Ok code →
  ∃ d h, code = format_code d h ∧ slot_hour_offset code = Ok h
         ∧ 0 ≤ d ≤ 6 ∧ 0 ≤ h ≤ 12.
Proof.
  rewrite remap_time_code_cases.
  destruct (parse_time_code time_code) as [[hour period]|e]; [|done].
  cbv zeta. set (h := to_24_hour hour period).
  destruct (Z.ltb_spec h 7); [done|].
  destruct (Z.gtb_spec h 19); [done|]. simpl.
  destruct (days_mapping_get_range (strip week_day)) as [->|Hd]; [done|].
  destruct (Z.eqb_spec (days_mapping_get (strip week_day)) (-1)); [done|].
  intros [= <-].
  exists (days_mapping_get (strip week_day)), (h - 7).
  pose proof (hour_code_cases h ltac:(lia)) as Hh.
  split; [done|].
  split; [|rewrite !elem_of_cons in Hd; rewrite !elem_of_cons in Hh;
           rewrite elem_of_nil in Hd; rewrite elem_of_nil in Hh; lia].
  revert Hd Hh. generalize (days_mapping_get (strip week_day)) (h - 7).
  intros d k Hd Hk.
  repeat (apply elem_of_cons in Hd as [->|Hd]);
    [..|by apply elem_of_nil in Hd];
    (repeat (apply elem_of_cons in Hk as [->|Hk]);
     [..|by apply elem_of_nil in Hk]); vm_compute; reflexivity.
Qed.

(** The theorem at ("7:00 PM", "Monday"). *)
Lemma remap_time_code_hour_offset_range_witness :
  ∃ d h, "0_12" = format_code d h ∧ slot_hour_offset "0_12" = Ok h
         ∧ 0 ≤ d ≤ 6 ∧ 0 ≤ h ≤ 12.
Proof.
  apply (remap_time_code_hour_offset_range "7:00 PM" "Monday" "0_12").
  reflexivity.
Defined.

(** C4 as stated fails: "7:00 PM" on a Monday is encoded, and the hour
    offset of its code is 12, outside 0..11. *)
Lemma remap_time_code_offset_12 :
  remap_time_code "7:00 PM" "Monday" = Ok "0_12"
  ∧ slot_hour_offset "0_12" = Ok 12
  ∧ ¬ (0 ≤ 12 ≤ 11).
Proof. split_and!; [reflexivity|reflexivity|lia]. Qed.

(** ** Candidate generation *)

Lemma elem_of_filled (c : candidate) (i : nat) : i ∈ filled c ↔ Some i ∈ c.
Proof.
  unfold filled. rewrite list_elem_of_omap. split.
  - intros (x & Hx & Hid). simpl in Hid. by subst.
  - intros Hi. by exists (Some i).
Qed.

Lemma truthy_try_assign (p : InstructorPref.t) (s : Session.t) :
  truthy (try_assign_instructor p s) = true →
  InstructorPref.encoded_start_time_code p = Session.encoded_start_time_code s
  ∧ InstructorPref.uid p ≠ "".
Proof.
  unfold try_assign_instructor.
  destruct (String.eqb_spec (InstructorPref.encoded_start_time_code p)
              (Session.encoded_start_time_code s)) as [Heq|Hne]; [|done].
  simpl. destruct (String.eqb_spec (InstructorPref.uid p) ""); [done|].
  by intros _.
Qed.

(** The scan of one session returns, and what it returns is eligible and
    not yet consumed. *)
Lemma scan_instructor_prefs_spec (prefs : list InstructorPref.t)
    (session : Session.t) (assigned : candidate) (indices : list nat) :
  Forall (λ idx, (idx < length prefs)%nat) indices →
  ∃ entry,
    scan_instructor_prefs prefs session assigned indices = Ok entry
    ∧ entry_for prefs session entry
    ∧ entry ∉ filter is_Some assigned.
Proof.
  induction 1 as [|idx rest Hidx _ IH]; simpl.
  - exists None. split_and!; [done|done|].
    rewrite list_elem_of_filter. by intros [[? [=]] _].
  - apply lookup_lt_is_Some_2 in Hidx as [p Hp].
    unfold index. rewrite Hp. simpl.
    destruct (truthy (try_assign_instructor p session)) eqn:Htruthy;
      [|exact IH].
    unfold contains. case_bool_decide as Hin; [exact IH|].
    simpl. exists (Some idx). split_and!; [done| |].
    + exists p. split; [done|]. by apply truthy_try_assign.
    + rewrite list_elem_of_filter. by intros [_ ?].
Qed.

(** The loop over the sessions keeps, for the sessions [done] already
    handled, one eligible entry each and no preference index twice. *)
Lemma assign_sessions_spec (prefs : list InstructorPref.t) (indices : list nat) :
  Forall (λ idx, (idx < length prefs)%nat) indices →
  ∀ (sessions done : list Session.t) (assigned : candidate),
    Forall2 (entry_for prefs) done assigned →
    NoDup (filled assigned) →
    ∃ c, assign_sessions prefs indices sessions assigned = Ok c
         ∧ Forall2 (entry_for prefs) (done ++ sessions) c
         ∧ NoDup (filled c).
Proof.
  intros Hindices sessions.
  induction sessions as [|session sessions IH]; intros done assigned Hdone Hnodup.
  - exists assigned. by rewrite app_nil_r.
  - simpl.
    destruct (scan_instructor_prefs_spec prefs session assigned indices Hindices)
      as (entry & -> & Hentry & Hfresh).
    simpl.
    destruct (IH (done ++ [session])%list (assigned ++ [entry])%list) as (c & Hc & HF & HN).
    + apply Forall2_app; [done|]. by constructor.
    + unfold filled. rewrite omap_app. apply NoDup_app. split_and!; [done| |].
      * intros i Hi. destruct entry as [j|]; simpl; [|apply not_elem_of_nil].
        rewrite list_elem_of_singleton. intros ->.
        apply Hfresh. rewrite list_elem_of_filter. split; [done|].
        by apply elem_of_filled.
      * destruct entry; simpl; [apply NoDup_singleton|apply NoDup_nil_2].
    + exists c. by rewrite <-app_assoc in HF.
Qed.

Lemma entry_for_in_catalog (prefs : list InstructorPref.t)
    (sessions : list Session.t) (c : candidate) :
  Forall2 (entry_for prefs) sessions c → in_catalog prefs c.
Proof.
  intros HF i Hi. apply list_elem_of_lookup_1 in Hi as [k Hk].
  destruct (Forall2_lookup_r _ _ _ _ _ HF Hk) as (s & _ & (p & Hp & _)).
  apply lookup_lt_is_Some_1. by exists p.
Qed.

(** ** Scoring *)

Lemma unfilled_count_cons (entry : option nat) (c : candidate) :
  unfilled_count (entry :: c)
  = ((if entry is None then 1 else 0) + unfilled_count c)%nat.
Proof.
  unfold unfilled_count. rewrite filter_cons.
  destruct entry; case_decide; done.
Qed.

(** One pass through the loop body adds -5 for an unfilled position and 2
    for a rewarded one. *)
Lemma score_entry_rewarded (prefs : list InstructorPref.t) (c : candidate)
    (idx : nat) (entry : option nat) (score : Z) :
  in_catalog prefs c →
  c !! idx = Some entry →
  score_entry prefs c idx entry score
  = Ok (score + (if entry is None then -5 else 0)
        + (if rewarded prefs c idx then 2 else 0)).
Proof.
  intros Hcat Hidx. unfold rewarded. rewrite Hidx.
  destruct entry as [i|]; simpl.
  - destruct idx as [|idx]; simpl.
    { f_equal. lia. }
    rewrite Nat.sub_0_r.
    destruct (lookup_lt_is_Some_2 c idx) as [prev Hprev].
    { apply lookup_lt_Some in Hidx. lia. }
    unfold index. rewrite Hprev. simpl.
    destruct prev as [j|]; [|f_equal; lia].
    destruct (lookup_lt_is_Some_2 prefs j) as [pj Hpj].
    { apply Hcat. by eapply list_elem_of_lookup_2. }
    destruct (lookup_lt_is_Some_2 prefs i) as [pi Hpi].
    { apply Hcat. by eapply list_elem_of_lookup_2. }
    rewrite Hpj, Hpi. simpl.
    destruct (_ && _); f_equal; lia.
  - rewrite andb_false_r. f_equal. lia.
Qed.

(** The loop from position [length before] on, [c] being [before] followed
    by what remains. *)
Lemma score_from_sum (prefs : list InstructorPref.t) (c : candidate) :
  in_catalog prefs c →
  ∀ (remaining before : candidate) (score : Z),
    c = (before ++ remaining)%list →
    score_from prefs c (length before) remaining score
    = Ok (score - 5 * Z.of_nat (unfilled_count remaining)
          + 2 * Z.of_nat (length (filter (λ idx, rewarded prefs c idx = true)
                                    (seq (length before) (length remaining))))).
Proof.
  intros Hcat remaining.
  induction remaining as [|entry remaining IH]; intros before score Hc.
  - simpl. f_equal. unfold unfilled_count. simpl. lia.
  - cbn [score_from].
    rewrite (score_entry_rewarded prefs c (length before) entry score Hcat)
      by (subst c; apply list_lookup_middle; done).
    cbn [mbind result_bind bind].
    replace (S (length before)) with (length (before ++ [entry])%list)
      by (rewrite length_app; simpl; lia).
    rewrite IH by (rewrite <-app_assoc; done).
    rewrite length_app. cbn [length seq]. rewrite filter_cons.
    rewrite unfilled_count_cons.
    replace (length before + 1)%nat with (S (length before)) by lia.
    f_equal.
    destruct (rewarded prefs c (length before)); case_decide; try done;
      destruct entry; cbn [length]; lia.
Qed.

(** The whole loop, from position 0 and score 0. *)
Lemma candidate_score_sum (prefs : list InstructorPref.t) (c : candidate) :
  in_catalog prefs c →
  candidate_score prefs c
  = Ok (-5 * Z.of_nat (unfilled_count c)
        + 2 * Z.of_nat (rewarded_count prefs c)).
Proof.
  intros Hcat. unfold candidate_score.
  pose proof (score_from_sum prefs c Hcat c [] 0 eq_refl) as Hsum.
  cbn [length] in Hsum. rewrite Hsum.
  unfold rewarded_count. f_equal. lia.
Qed.

Lemma unfilled_count_all (c : candidate) :
  Forall (λ entry, entry = None) c → unfilled_count c = length c.
Proof.
  induction 1 as [|entry c -> _ IH]; [done|].
  by rewrite unfilled_count_cons, IH.
Qed.

Lemma unfilled_count_none (c : candidate) :
  Forall is_Some c → unfilled_count c = 0%nat.
Proof.
  induction 1 as [|entry c [i ->] _ IH]; [done|].
  by rewrite unfilled_count_cons, IH.
Qed.

(** No position is rewarded where nothing is filled. *)
Lemma rewarded_count_unfilled (prefs : list InstructorPref.t) (c : candidate) :
  Forall (λ entry, entry = None) c → rewarded_count prefs c = 0%nat.
Proof.
  intros Hnone. unfold rewarded_count.
  rewrite (elem_of_nil_inv (filter _ _)); [done|].
  intros idx [Hrew _]%list_elem_of_filter. revert Hrew. unfold rewarded.
  destruct (c !! idx) as [entry|] eqn:Hidx.
  - rewrite Forall_forall in Hnone.
    rewrite (Hnone entry) by (by eapply list_elem_of_lookup_2).
    by rewrite andb_false_r.
  - by rewrite andb_false_r.
Qed.

(** C5.  The score of a candidate whose filled entries are positions of
    the catalog is -5 for each unfilled position plus 2 for each rewarded
    position ([idx > 0], both [idx] and [idx - 1] filled, same instructor
    and same weekday).  An all-unfilled candidate scores -5 times its
    length; a fully filled one scores twice its rewarded positions and is
    never below 0. *)
Theorem candidate_score_formula (prefs : list InstructorPref.t) (c : candidate) :
  in_catalog prefs c →
  candidate_score prefs c
  = Ok (-5 * Z.of_nat (unfilled_count c)
        + 2 * Z.of_nat (rewarded_count prefs c))
  ∧ (Forall (λ entry, entry = None) c →
     candidate_score prefs c = Ok (-5 * Z.of_nat (length c)))
  ∧ (Forall is_Some c →
     candidate_score prefs c = Ok (2 * Z.of_nat (rewarded_count prefs c))
     ∧ 0 ≤ 2 * Z.of_nat (rewarded_count prefs c)).
Proof.
  intros Hcat. pose proof (candidate_score_sum prefs c Hcat) as Hscore.
  split_and!; [done| |].
  - intros Hnone. rewrite Hscore.
    rewrite (unfilled_count_all c Hnone), (rewarded_count_unfilled prefs c Hnone).
    f_equal. lia.
  - intros Hsome. rewrite Hscore, (unfilled_count_none c Hsome).
    split; [f_equal; lia|lia].
Qed.

Lemma filled_NoDup_lookup (c : candidate) (k k' idx : nat) :
  NoDup (filled c) →
  c !! k = Some (Some idx) → c !! k' = Some (Some idx) → k = k'.
Proof.
  revert k k'. induction c as [|entry c IH]; intros k k' HN Hk Hk'; [done|].
  assert (NoDup (filled c)) as HNc.
  { destruct entry; [by apply NoDup_cons in HN as [_ ?]|done]. }
  assert (∀ j, c !! j = Some (Some idx) → entry ≠ Some idx) as Hfresh.
  { intros j Hj ->. apply NoDup_cons in HN as [Hnot _].
    apply Hnot, elem_of_filled. by eapply list_elem_of_lookup_2. }
  destruct k as [|k], k' as [|k']; simpl in *.
  - done.
  - injection Hk as ->. by destruct (Hfresh k' Hk').
  - injection Hk' as ->. by destruct (Hfresh k Hk).
  - f_equal. by apply IH.
Qed.

Section WithShuffle.

Variable rng : Type.
Variable shuffle : list nat -> rng -> list nat * rng.

(** [random.shuffle] rearranges the list it is given. *)
Hypothesis shuffle_permutation : ∀ l g, (shuffle l g).1 ≡ₚ l.

(** A call of the generator returns a candidate, with one eligible entry
    per session and no preference index twice. *)
Lemma calculate_session_assignments_spec (sessions : list Session.t)
    (prefs : list InstructorPref.t) (replicates : Z) (g : rng) :
  ∃ c, calculate_session_assignments rng shuffle sessions prefs replicates g
       = Ok (c, (shuffle (seq 0 (length prefs)) g).2)
       ∧ Forall2 (entry_for prefs) sessions c
       ∧ NoDup (filled c).
Proof.
  unfold calculate_session_assignments.
  pose proof (shuffle_permutation (seq 0 (length prefs)) g) as Hperm.
  destruct (shuffle (seq 0 (length prefs)) g) as [indices g']. simpl in *.
  destruct (assign_sessions_spec prefs indices) with (sessions := sessions)
    (done := @nil Session.t) (assigned := @nil (option nat))
    as (c & -> & HF & HN).
  - apply Forall_forall. intros idx Hidx. rewrite Hperm in Hidx.
    apply elem_of_seq in Hidx. lia.
  - constructor.
  - constructor.
  - exists c. done.
Qed.

(** C6.  A call of the generator returns a candidate with one entry per
    session, and every filled entry references a preference whose slot
    code is equal to the slot code of the session at that position. *)
Theorem generated_entries_match_slot (sessions : list Session.t)
    (prefs : list InstructorPref.t) (replicates : Z) (g : rng) :
  ∃ c g',
    calculate_session_assignments rng shuffle sessions prefs replicates g
    = Ok (c, g')
    ∧ length c = length sessions
    ∧ ∀ k idx, c !! k = Some (Some idx) →
        ∃ session p,
          sessions !! k = Some session ∧ prefs !! idx = Some p
          ∧ InstructorPref.encoded_start_time_code p
            = Session.encoded_start_time_code session.
Proof.
  destruct (calculate_session_assignments_spec sessions prefs replicates g)
    as (c & Hc & HF & _).
  exists c, (shuffle (seq 0 (length prefs)) g).2.
  split_and!; [done|by rewrite (Forall2_length _ _ _ HF)|].
  intros k idx Hk.
  destruct (Forall2_lookup_r _ _ _ _ _ HF Hk) as (s & Hs & (p & Hp & Hcode & _)).
  by exists s, p.
Qed.

(** C7.  Within the candidate a call returns, no preference index fills
    two positions.  The indices consumed by one call do not carry over
    to the next: when the next shuffle comes out the same, the next call
    returns the same candidate, filled with the same indices. *)
Theorem generated_entries_distinct (sessions : list Session.t)
    (prefs : list InstructorPref.t) (replicates : Z) (g : rng) :
  ∃ c g',
    calculate_session_assignments rng shuffle sessions prefs replicates g
    = Ok (c, g')
    ∧ NoDup (filled c)
    ∧ (∀ k k' idx,
         c !! k = Some (Some idx) → c !! k' = Some (Some idx) → k = k')
    ∧ ((shuffle (seq 0 (length prefs)) g').1
       = (shuffle (seq 0 (length prefs)) g).1 →
       ∃ g'',
         calculate_session_assignments rng shuffle sessions prefs replicates g'
         = Ok (c, g'')).
Proof.
  destruct (calculate_session_assignments_spec sessions prefs replicates g)
    as (c & Hc & _ & HN).
  exists c, (shuffle (seq 0 (length prefs)) g).2.
  split_and!; [done|done| |].
  - intros k k' idx. by apply filled_NoDup_lookup.
  - revert Hc. unfold calculate_session_assignments.
    destruct (shuffle (seq 0 (length prefs)) g) as [indices g1]. simpl.
    destruct (shuffle (seq 0 (length prefs)) g1) as [indices' g2]. simpl.
    intros Hc ->. exists g2.
    destruct (assign_sessions prefs indices sessions []); [|done].
    simpl in *. by inversion Hc.
Qed.

(** C10.  No filled entry of a generated candidate references a
    preference whose [uid] is the empty string, equal slot codes or not;
    with one session and one such preference in the same slot, the
    session is recorded unfilled. *)
Theorem empty_uid_never_assigned (sessions : list Session.t)
    (prefs : list InstructorPref.t) (replicates : Z) (g : rng) :
  (∃ c g',
     calculate_session_assignments rng shuffle sessions prefs replicates g
     = Ok (c, g')
     ∧ ∀ k idx p, c !! k = Some (Some idx) → prefs !! idx = Some p →
         InstructorPref.uid p ≠ "")
  ∧ InstructorPref.uid pref_anonymous_9 = ""
  ∧ InstructorPref.encoded_start_time_code pref_anonymous_9
    = Session.encoded_start_time_code monday_9
  ∧ ∃ g',
      calculate_session_assignments rng shuffle [monday_9] [pref_anonymous_9]
        replicates g
      = Ok ([None], g').
Proof.
  assert (∀ sessions prefs,
    ∃ c g',
      calculate_session_assignments rng shuffle sessions prefs replicates g
      = Ok (c, g')
      ∧ length c = length sessions
      ∧ ∀ k idx p, c !! k = Some (Some idx) → prefs !! idx = Some p →
          InstructorPref.uid p ≠ "") as Hgen.
  { intros ss ps.
    destruct (calculate_session_assignments_spec ss ps replicates g)
      as (c & Hc & HF & _).
    exists c, (shuffle (seq 0 (length ps)) g).2.
    split_and!; [done|by rewrite (Forall2_length _ _ _ HF)|].
    intros k idx p Hk Hp.
    destruct (Forall2_lookup_r _ _ _ _ _ HF Hk) as (s & _ & (p' & Hp' & _ & Hu)).
    congruence. }
  split_and!; [|done|done|].
  - destruct (Hgen sessions prefs) as (c & g' & Hc & _ & Hu). by exists c, g'.
  - destruct (Hgen [monday_9] [pref_anonymous_9]) as (c & g' & Hc & Hlen & Hu).
    exists g'. rewrite Hc. do 2 f_equal.
    destruct c as [|entry [|? ?]]; [done| |done].
    destruct entry as [idx|]; [|done].
    exfalso. destruct idx as [|idx].
    + by apply (Hu 0%nat 0%nat pref_anonymous_9).
    + destruct (calculate_session_assignments_spec [monday_9]
                  [pref_anonymous_9] replicates g) as (c' & Hc' & HF & _).
      rewrite Hc in Hc'. inversion Hc'; subst c'.
      apply entry_for_in_catalog in HF.
      specialize (HF (S idx)). simpl in HF.
      assert (Some (S idx) ∈ [Some (S idx)]) as Hin by apply list_elem_of_here.
      apply HF in Hin. lia.
Qed.

(** *** The search loop *)

Abbreviation generate := (calculate_session_assignments rng shuffle).
Abbreviation run_epoch := (epoch rng shuffle).
Abbreviation run_epochs := (epochs_from rng shuffle).
Abbreviation run_search := (search rng shuffle).

(** One epoch: a candidate is generated and scored, and it replaces the
    retained best when it scores higher or when nothing is retained. *)
Lemma epoch_spec (sessions : list Session.t) (prefs : list InstructorPref.t)
    (replicates : Z) (b : best) (g : rng) :
  ∃ c s g',
    generate sessions prefs replicates g = Ok (c, g')
    ∧ candidate_score prefs c = Ok s
    ∧ run_epoch sessions prefs replicates b g
      = Ok (if (s >? b.2) || bool_decide (b.1 = None)
            then (Some c, s) else b, g').
Proof.
  destruct (calculate_session_assignments_spec sessions prefs replicates g)
    as (c & Hc & HF & _).
  pose proof (candidate_score_sum prefs c (entry_for_in_catalog _ _ _ HF))
    as Hs.
  eexists c, _, _. split_and!; [done|done|].
  unfold epoch. rewrite Hc. cbn [mbind result_bind bind].
  unfold update_best_session_assignment. rewrite Hs.
  cbn [mbind result_bind bind].
  destruct b as [kept kept_score]. simpl.
  by destruct ((_ >? _) || _).
Qed.

Lemma epochs_from_add (sessions : list Session.t)
    (prefs : list InstructorPref.t) (replicates : Z) (n k : nat) :
  ∀ (b : best) (g : rng),
    run_epochs sessions prefs replicates (n + k) b g
    = '(b1, g1) ← run_epochs sessions prefs replicates n b g;
      run_epochs sessions prefs replicates k b1 g1.
Proof.
  induction n as [|n IH]; intros b g; [done|].
  cbn [Nat.add epochs_from].
  destruct (run_epoch sessions prefs replicates b g) as [[b1 g1]|e]; [|done].
  cbn [mbind result_bind bind]. apply IH.
Qed.

Lemma epochs_from_last (sessions : list Session.t)
    (prefs : list InstructorPref.t) (replicates : Z) (n : nat)
    (b : best) (g : rng) :
  run_epochs sessions prefs replicates (S n) b g
  = '(b1, g1) ← run_epochs sessions prefs replicates n b g;
    run_epoch sessions prefs replicates b1 g1.
Proof.
  replace (S n) with (n + 1)%nat by lia. rewrite epochs_from_add.
  destruct (run_epochs sessions prefs replicates n b g) as [[b1 g1]|e]; [|done].
  cbn [mbind result_bind bind epochs_from].
  by destruct (run_epoch sessions prefs replicates b1 g1) as [[b2 g2]|e].
Qed.

(** Once a candidate is retained, one stays retained and the retained
    score does not go down. *)
Lemma epochs_from_retained (sessions : list Session.t)
    (prefs : list InstructorPref.t) (replicates : Z) (k : nat) :
  ∀ (b : best) (g : rng),
    b.1 ≠ None →
    ∃ b' g',
      run_epochs sessions prefs replicates k b g = Ok (b', g')
      ∧ b'.1 ≠ None ∧ b.2 ≤ b'.2.
Proof.
  induction k as [|k IH]; intros b g Hb.
  - exists b, g. done.
  - destruct (epoch_spec sessions prefs replicates b g)
      as (c & s & g1 & _ & _ & Hepoch).
    cbn [epochs_from]. rewrite Hepoch. cbn [mbind result_bind bind].
    rewrite bool_decide_eq_false_2, orb_false_r by done.
    destruct (Z.gtb_spec s b.2) as [Hgt|Hle].
    + destruct (IH (Some c, s) g1) as (b' & g' & Hrun & Hkept & Hscore); [done|].
      exists b', g'. simpl in Hscore. split_and!; [done|done|lia].
    + by apply IH.
Qed.

(** From the initial values, nothing is retained before the first epoch
    and something is after it. *)
Lemma epochs_from_initial (sessions : list Session.t)
    (prefs : list InstructorPref.t) (replicates : Z) (n : nat) (g : rng) :
  ∃ b g',
    run_epochs sessions prefs replicates n initial_best g = Ok (b, g')
    ∧ (b.1 = None ↔ n = 0%nat).
Proof.
  destruct n as [|n].
  - exists initial_best, g. done.
  - destruct (epoch_spec sessions prefs replicates initial_best g)
      as (c & s & g1 & _ & _ & Hepoch).
    cbn [epochs_from]. rewrite Hepoch. cbn [mbind result_bind bind].
    rewrite orb_true_r.
    destruct (epochs_from_retained sessions prefs replicates n (Some c, s) g1)
      as (b & g' & Hrun & Hkept & _); [done|].
    exists b, g'. split; [done|]. split; [done|lia].
Qed.

(** C1, as the code has it.  The candidate of an epoch replaces the
    retained best and its score when it scores strictly above the
    retained score, or when nothing is retained yet, which is so in
    the first epoch only: the first candidate is retained whatever it
    scores, and a later one only on strict improvement. *)
Theorem best_replaced_on_improvement_or_first_epoch
    (sessions : list Session.t) (prefs : list InstructorPref.t)
    (replicates epochs : Z) (g : rng) :
  0 ≤ epochs →
  ∃ b g1 c s g2,
    run_search sessions prefs replicates epochs g = Ok (b, g1)
    ∧ generate sessions prefs replicates g1 = Ok (c, g2)
    ∧ candidate_score prefs c = Ok s
    ∧ run_search sessions prefs replicates (epochs + 1) g
      = Ok (if (s >? b.2) || (epochs =? 0) then (Some c, s) else b, g2).
Proof.
  intros Hepochs. unfold search.
  replace (Z.to_nat (epochs + 1)) with (S (Z.to_nat epochs)) by lia.
  destruct (epochs_from_initial sessions prefs replicates (Z.to_nat epochs) g)
    as (b & g1 & Hrun & Hkept).
  destruct (epoch_spec sessions prefs replicates b g1)
    as (c & s & g2 & Hc & Hs & Hepoch).
  exists b, g1, c, s, g2. split_and!; [done|done|done|].
  rewrite epochs_from_last, Hrun. cbn [mbind result_bind bind].
  rewrite Hepoch.
  destruct (Z.eqb_spec epochs 0) as [->|Hne].
  - rewrite bool_decide_eq_true_2; [done|]. by apply Hkept.
  - rewrite bool_decide_eq_false_2; [done|]. rewrite Hkept. lia.
Qed.

(** C2, as the code has it.  From the first epoch on the retained score
    does not go down: it is no lower after [n] epochs than after [m]
    epochs, for 1 <= m <= n. *)
Theorem best_score_nondecreasing_after_first_epoch
    (sessions : list Session.t) (prefs : list InstructorPref.t)
    (replicates m n : Z) (g : rng) :
  1 ≤ m → m ≤ n →
  ∃ b g1 b' g2,
    run_search sessions prefs replicates m g = Ok (b, g1)
    ∧ run_search sessions prefs replicates n g = Ok (b', g2)
    ∧ b.2 ≤ b'.2.
Proof.
  intros Hm Hn. unfold search.
  replace (Z.to_nat n) with (Z.to_nat m + Z.to_nat (n - m))%nat by lia.
  destruct (epochs_from_initial sessions prefs replicates (Z.to_nat m) g)
    as (b & g1 & Hrun & Hkept).
  destruct (epochs_from_retained sessions prefs replicates
              (Z.to_nat (n - m)) b g1) as (b' & g2 & Hrun' & _ & Hscore).
  { rewrite Hkept. lia. }
  exists b, g1, b', g2. split_and!; [done| |done].
  rewrite epochs_from_add, Hrun. done.
Qed.

End WithShuffle.

(** ** The unused hyperparameters and the empty search *)

Lemma epochs_from_replicates (rng : Type)
    (shuffle : list nat -> rng -> list nat * rng)
    (sessions : list Session.t) (prefs : list InstructorPref.t)
    (replicates replicates' : Z) (n : nat) :
  ∀ (b : best) (g : rng),
    epochs_from rng shuffle sessions prefs replicates n b g
    = epochs_from rng shuffle sessions prefs replicates' n b g.
Proof.
  induction n as [|n IH]; intros b g; [done|].
  cbn [epochs_from].
  change (epoch rng shuffle sessions prefs replicates b g)
    with (epoch rng shuffle sessions prefs replicates' b g).
  destruct (epoch rng shuffle sessions prefs replicates' b g) as [[b1 g1]|e];
    [|done].
  cbn [mbind result_bind bind]. apply IH.
Qed.

(** C8.  For the same catalogs, the same shuffle and the same generator
    state, neither [replicates] nor [max_attempts] changes anything: a
    call of the generator returns the same candidate, the search ends
    with the same retained best, and [scheduler] has the same outcome. *)
Theorem hyperparameters_have_no_effect (rng : Type)
    (shuffle : list nat -> rng -> list nat * rng)
    (sessions : list Session.t) (prefs : list InstructorPref.t)
    (epochs replicates replicates' max_attempts max_attempts' : Z)
    (session_file instructor_pref_file output_path : string)
    (verbose : bool) (fs : files) (g : rng) :
  calculate_session_assignments rng shuffle sessions prefs replicates g
  = calculate_session_assignments rng shuffle sessions prefs replicates' g
  ∧ search rng shuffle sessions prefs replicates epochs g
    = search rng shuffle sessions prefs replicates' epochs g
  ∧ scheduler rng shuffle epochs replicates max_attempts
      session_file instructor_pref_file output_path verbose fs g
    = scheduler rng shuffle epochs replicates' max_attempts'
        session_file instructor_pref_file output_path verbose fs g.
Proof.
  split_and!.
  - reflexivity.
  - apply epochs_from_replicates.
  - unfold scheduler, search.
    by rewrite (epochs_from_replicates _ _ _ _ replicates replicates').
Qed.

(** C9.  With [epochs = 0] the loop body never runs, nothing is retained,
    and the projection raises ([enumerate(None)]: the object is not
    iterable): [scheduler] fails before it writes anything. *)
Theorem scheduler_zero_epochs_fails (rng : Type)
    (shuffle : list nat -> rng -> list nat * rng)
    (sessions : list Session.t) (prefs : list InstructorPref.t)
    (replicates max_attempts : Z)
    (session_file instructor_pref_file output_path : string)
    (verbose : bool) (fs : files) (g : rng) :
  search rng shuffle sessions prefs replicates 0 g = Ok (initial_best, g)
  ∧ initial_best.1 = None
  ∧ map_assignments sessions prefs None = Raise TypeError_none_iter
  ∧ scheduler rng shuffle 0 replicates max_attempts
      session_file instructor_pref_file output_path verbose fs g
    = Raise TypeError_none_iter.
Proof. split_and!; reflexivity. Qed.

(** ** The theorems at concrete catalogs *)

(** The records above are what the constructors build. *)
Lemma catalogs_constructed :
  Session.init "Monday" "9:00 AM" "10:00 AM" = Ok monday_9
  ∧ Session.init "Monday" "10:00 AM" "11:00 AM" = Ok monday_10
  ∧ InstructorPref.init "I1" "A" "Monday" "9:00 AM" "10:00 AM" = Ok pref_a_9
  ∧ InstructorPref.init "I1" "A" "Monday" "10:00 AM" "11:00 AM" = Ok pref_a_10
  ∧ InstructorPref.init "I2" "B" "Monday" "9:00 AM" "10:00 AM" = Ok pref_b_9
  ∧ InstructorPref.init "" "Nobody" "Monday" "9:00 AM" "10:00 AM"
    = Ok pref_anonymous_9.
Proof. split_and!; reflexivity. Qed.

(** C1 as stated fails: with one session on Monday at 10 and one
    preference on Monday at 9, the first candidate is all-unfilled and
    scores -5, which does not exceed 0, yet after the first epoch it is
    the retained best and -5 the retained score. *)
Lemma negative_first_candidate_is_retained :
  search unit keep_order [monday_10] [pref_a_9] 5 0 tt = Ok ((None, 0), tt)
  ∧ calculate_session_assignments unit keep_order [monday_10] [pref_a_9] 5 tt
    = Ok ([None], tt)
  ∧ candidate_score [pref_a_9] [None] = Ok (-5)
  ∧ ¬ (-5 > 0)
  ∧ update_best_session_assignment [pref_a_9] None 0 [None]
    = Ok (Some [None], -5)
  ∧ search unit keep_order [monday_10] [pref_a_9] 5 1 tt
    = Ok ((Some [None], -5), tt).
Proof. split_and!; try reflexivity. lia. Qed.

(** C2 as stated fails: in the same run the retained score is 0 before
    the first epoch and -5 after it. *)
Lemma best_score_drops_in_first_epoch :
  (∃ g, search unit keep_order [monday_10] [pref_a_9] 5 0 tt
        = Ok ((None, 0), g))
  ∧ (∃ g, search unit keep_order [monday_10] [pref_a_9] 5 1 tt
          = Ok ((Some [None], -5), g))
  ∧ ¬ (0 ≤ -5).
Proof. split_and!; [by exists tt|by exists tt|lia]. Qed.

(** C1's theorem at the second epoch of a run over two sessions. *)
Lemma best_replaced_on_improvement_or_first_epoch_witness :
  (∀ l g, (keep_order l g).1 ≡ₚ l) ∧ 0 ≤ 1
  ∧ ∃ b g1 c s g2,
      search unit keep_order [monday_9; monday_10] [pref_a_9; pref_a_10] 5 1 tt
      = Ok (b, g1)
      ∧ calculate_session_assignments unit keep_order [monday_9; monday_10]
          [pref_a_9; pref_a_10] 5 g1 = Ok (c, g2)
      ∧ candidate_score [pref_a_9; pref_a_10] c = Ok s
      ∧ search unit keep_order [monday_9; monday_10] [pref_a_9; pref_a_10] 5
          (1 + 1) tt
        = Ok (if (s >? b.2) || (1 =? 0) then (Some c, s) else b, g2).
Proof.
  assert (∀ l g, (keep_order l g).1 ≡ₚ l) as Hkeep by (intros; reflexivity).
  split_and!; [exact Hkeep|lia|].
  apply (best_replaced_on_improvement_or_first_epoch unit keep_order Hkeep
           [monday_9; monday_10] [pref_a_9; pref_a_10] 5 1 tt).
  lia.
Defined.

(** C2's theorem between the first and the third epoch. *)
Lemma best_score_nondecreasing_after_first_epoch_witness :
  (∀ l g, (reverse_order l g).1 ≡ₚ l) ∧ 1 ≤ 1 ∧ 1 ≤ 3
  ∧ ∃ b g1 b' g2,
      search nat reverse_order [monday_9; monday_10] [pref_b_9; pref_a_9] 5 1 0%nat
      = Ok (b, g1)
      ∧ search nat reverse_order [monday_9; monday_10] [pref_b_9; pref_a_9] 5 3
          0%nat = Ok (b', g2)
      ∧ b.2 ≤ b'.2.
Proof.
  assert (∀ l g, (reverse_order l g).1 ≡ₚ l) as Hrev
    by (intros; apply reverse_Permutation).
  split_and!; [exact Hrev|lia|lia|].
  apply (best_score_nondecreasing_after_first_epoch nat reverse_order Hrev
           [monday_9; monday_10] [pref_b_9; pref_a_9] 5 1 3 0%nat); lia.
Defined.

(** C5's theorem at a candidate with a rewarded and an unfilled position. *)
Lemma candidate_score_formula_witness :
  in_catalog [pref_a_9; pref_a_10] [Some 0%nat; Some 1%nat; None]
  ∧ candidate_score [pref_a_9; pref_a_10] [Some 0%nat; Some 1%nat; None]
    = Ok (-5 * 1 + 2 * 1).
Proof.
  assert (in_catalog [pref_a_9; pref_a_10] [Some 0%nat; Some 1%nat; None])
    as Hcat.
  { intros i Hi.
    repeat (apply elem_of_cons in Hi as [Hi|Hi];
            [inversion Hi; simpl; lia|]).
    by apply elem_of_nil in Hi. }
  split; [exact Hcat|].
  exact (proj1 (candidate_score_formula [pref_a_9; pref_a_10]
                  [Some 0%nat; Some 1%nat; None] Hcat)).
Defined.

(** C6's theorem at two sessions and three preferences. *)
Lemma generated_entries_match_slot_witness :
  (∀ l g, (keep_order l g).1 ≡ₚ l)
  ∧ ∃ c g',
      calculate_session_assignments unit keep_order [monday_9; monday_10]
        [pref_b_9; pref_a_9; pref_a_10] 5 tt = Ok (c, g')
      ∧ length c = length [monday_9; monday_10]
      ∧ ∀ k idx, c !! k = Some (Some idx) →
          ∃ session p,
            [monday_9; monday_10] !! k = Some session
            ∧ [pref_b_9; pref_a_9; pref_a_10] !! idx = Some p
            ∧ InstructorPref.encoded_start_time_code p
              = Session.encoded_start_time_code session.
Proof.
  assert (∀ l g, (keep_order l g).1 ≡ₚ l) as Hkeep by (intros; reflexivity).
  split; [exact Hkeep|].
  exact (generated_entries_match_slot unit keep_order Hkeep
           [monday_9; monday_10] [pref_b_9; pref_a_9; pref_a_10] 5 tt).
Defined.

(** C7's theorem at two sessions in the same slot. *)
Lemma generated_entries_distinct_witness :
  (∀ l g, (keep_order l g).1 ≡ₚ l)
  ∧ ∃ c g',
      calculate_session_assignments unit keep_order [monday_9; monday_9]
        [pref_b_9; pref_a_9] 5 tt = Ok (c, g')
      ∧ NoDup (filled c)
      ∧ (∀ k k' idx,
           c !! k = Some (Some idx) → c !! k' = Some (Some idx) → k = k')
      ∧ ((keep_order (seq 0 (length [pref_b_9; pref_a_9])) g').1
         = (keep_order (seq 0 (length [pref_b_9; pref_a_9])) tt).1 →
         ∃ g'',
           calculate_session_assignments unit keep_order [monday_9; monday_9]
             [pref_b_9; pref_a_9] 5 g' = Ok (c, g'')).
Proof.
  assert (∀ l g, (keep_order l g).1 ≡ₚ l) as Hkeep by (intros; reflexivity).
  split; [exact Hkeep|].
  exact (generated_entries_distinct unit keep_order Hkeep
           [monday_9; monday_9] [pref_b_9; pref_a_9] 5 tt).
Defined.

(** C10's theorem at a catalog that lists the anonymous preference first. *)
Lemma empty_uid_never_assigned_witness :
  (∀ l g, (keep_order l g).1 ≡ₚ l)
  ∧ ∃ c g',
      calculate_session_assignments unit keep_order [monday_9; monday_9]
        [pref_anonymous_9; pref_a_9] 5 tt = Ok (c, g')
      ∧ ∀ k idx p, c !! k = Some (Some idx) →
          [pref_anonymous_9; pref_a_9] !! idx = Some p →
          InstructorPref.uid p ≠ "".
Proof.
  assert (∀ l g, (keep_order l g).1 ≡ₚ l) as Hkeep by (intros; reflexivity).
  split; [exact Hkeep|].
  exact (proj1 (empty_uid_never_assigned unit keep_order Hkeep
                  [monday_9; monday_9] [pref_anonymous_9; pref_a_9] 5 tt)).
Defined.

(** * Further properties of the code *)

(** ** Strings *)

Lemma append_cons (a : ascii) (s t : string) :
  String a s +:+ t = String a (s +:+ t).
Proof. reflexivity. Qed.

Lemma append_empty_l (t : string) : "" +:+ t = t.
Proof. reflexivity. Qed.

Lemma append_empty_r (s : string) : s +:+ "" = s.
Proof.
  induction s as [|a s IH]; [done|]. by rewrite append_cons, IH.
Qed.

Lemma append_assoc (s t u : string) : (s +:+ t) +:+ u = s +:+ (t +:+ u).
Proof.
  induction s as [|a s IH]; [done|]. by rewrite !append_cons, IH.
Qed.

Lemma rev_app_append (s t : string) :
  String.rev_app s t = String.rev s +:+ t.
Proof.
  revert t. induction s as [|a s IH]; intros t; [done|].
  unfold String.rev. simpl. rewrite (IH (String a "")), (IH (String a t)).
  by rewrite append_assoc.
Qed.

Lemma rev_cons (a : ascii) (s : string) :
  String.rev (String a s) = String.rev s +:+ String a "".
Proof. unfold String.rev at 1. simpl. apply rev_app_append. Qed.

Lemma rev_append (s t : string) :
  String.rev (s +:+ t) = String.rev t +:+ String.rev s.
Proof.
  induction s as [|a s IH].
  - by rewrite append_empty_l, append_empty_r.
  - by rewrite append_cons, !rev_cons, IH, append_assoc.
Qed.

Lemma rev_involutive (s : string) : String.rev (String.rev s) = s.
Proof.
  induction s as [|a s IH]; [done|].
  by rewrite rev_cons, rev_append, IH.
Qed.

Lemma rev_empty_inv (s : string) : String.rev s = "" → s = "".
Proof. intros H. by rewrite <-(rev_involutive s), H. Qed.

Lemma lstrip_no_leading_space (s : string) : no_leading_space (lstrip s).
Proof.
  induction s as [|a s IH]; simpl; [done|].
  by destruct (is_space a) eqn:Ha.
Qed.

Lemma lstrip_fixed (s : string) : no_leading_space s → lstrip s = s.
Proof. destruct s as [|a s]; simpl; [done|]. by intros ->. Qed.

Lemma lstrip_append (u v : string) :
  lstrip (u +:+ v) = if decide (lstrip u = "") then lstrip v else lstrip u +:+ v.
Proof.
  induction u as [|a u IH]; [done|].
  rewrite append_cons. simpl.
  destruct (is_space a); [done|]. by case_decide.
Qed.

Lemma lstrip_all_space (s : string) : all_space s = true → lstrip s = "".
Proof.
  induction s as [|a s IH]; simpl; [done|].
  destruct (is_space a); [exact IH|done].
Qed.

(** [rstrip], read from the left. *)
Lemma rstrip_cons (a : ascii) (r : string) :
  rstrip (String a r)
  = if decide (rstrip r = "")
    then (if is_space a then "" else String a "")
    else String a (rstrip r).
Proof.
  unfold rstrip. rewrite rev_cons, lstrip_append.
  case_decide as Hr.
  - rewrite Hr. rewrite decide_True by done. simpl.
    by destruct (is_space a).
  - rewrite decide_False by (by intros ?%rev_empty_inv).
    by rewrite rev_append.
Qed.

Lemma rstrip_no_leading_space (s : string) :
  no_leading_space s → no_leading_space (rstrip s).
Proof.
  destruct s as [|a s]; [done|]. simpl. intros Ha.
  rewrite rstrip_cons, Ha. by case_decide.
Qed.

Lemma rstrip_idempotent (s : string) : rstrip (rstrip s) = rstrip s.
Proof.
  unfold rstrip. rewrite rev_involutive.
  by rewrite (lstrip_fixed _ (lstrip_no_leading_space _)).
Qed.

Lemma rstrip_append_space (s t : string) :
  all_space t = true → rstrip (s +:+ t) = rstrip s.
Proof.
  intros Ht. unfold rstrip. rewrite rev_append, lstrip_append.
  rewrite decide_True; [done|].
  apply lstrip_all_space. clear -Ht.
  induction t as [|a t IH]; [done|].
  simpl in Ht. apply andb_true_iff in Ht as [Ha Ht].
  rewrite rev_cons.
  assert (∀ u, all_space u = true → all_space (u +:+ String a "") = true) as Happ.
  { intros u. induction u as [|b u IHu]; simpl; [by rewrite Ha|].
    intros [-> ?]%andb_true_iff. by apply IHu. }
  by apply Happ, IH.
Qed.

Lemma strip_no_leading_space (s : string) : no_leading_space (strip s).
Proof. apply rstrip_no_leading_space, lstrip_no_leading_space. Qed.

Lemma strip_idempotent (s : string) : strip (strip s) = strip s.
Proof.
  unfold strip at 1.
  rewrite (lstrip_fixed _ (strip_no_leading_space s)).
  apply rstrip_idempotent.
Qed.

(** Whitespace before and after a string is removed by [strip]. *)
Lemma strip_padded (before s after : string) :
  all_space before = true → all_space after = true →
  strip (before +:+ s +:+ after) = strip s.
Proof.
  intros Hb Ha. unfold strip.
  rewrite lstrip_append, (lstrip_all_space _ Hb), decide_True by done.
  rewrite lstrip_append. case_decide as Hs.
  - rewrite Hs, (lstrip_all_space _ Ha). done.
  - by apply rstrip_append_space.
Qed.

Lemma prefix_char (c a : ascii) (r : string) :
  String.prefix (String c "") (String a r) = Ascii.eqb a c.
Proof.
  simpl. destruct (ascii_dec c a) as [->|Hne].
  - rewrite Ascii.eqb_refl. by destruct r.
  - symmetry. apply Ascii.eqb_neq. congruence.
Qed.

(** Splitting at a one-character separator: a field that does not contain
    the separator is read whole. *)
Lemma split_from_field (c : ascii) (field rest cur : string) :
  has_char c field = false →
  split_from (String c "") 0 cur (field +:+ String c rest)
  = (cur +:+ field) :: split_from (String c "") 0 "" rest.
Proof.
  revert cur. induction field as [|a field IH]; intros cur Hc.
  - rewrite append_empty_l, append_empty_r. cbn [split_from].
    by rewrite prefix_char, Ascii.eqb_refl.
  - simpl in Hc. apply orb_false_iff in Hc as [Ha Hc].
    rewrite append_cons. cbn [split_from].
    rewrite prefix_char, Ha, (IH _ Hc).
    by rewrite append_assoc.
Qed.

Lemma split_from_last (c : ascii) (field cur : string) :
  has_char c field = false →
  split_from (String c "") 0 cur field = [cur +:+ field].
Proof.
  revert cur. induction field as [|a field IH]; intros cur Hc.
  - by rewrite append_empty_r.
  - simpl in Hc. apply orb_false_iff in Hc as [Ha Hc].
    cbn [split_from]. rewrite prefix_char, Ha, (IH _ Hc).
    by rewrite append_assoc.
Qed.

(** The first field of a split begins with what was read before. *)
Lemma split_from_head (sep s : string) :
  ∀ (skip : nat) (cur : string),
    ∃ field fields, split_from sep skip cur s = (cur +:+ field) :: fields.
Proof.
  induction s as [|a s IH]; intros skip cur; cbn [split_from].
  - exists "", []. by rewrite append_empty_r.
  - destruct skip as [|skip]; [|apply IH].
    destruct (String.prefix sep (String a s)).
    + exists "", (split_from sep (String.length sep - 1) "" s).
      by rewrite append_empty_r.
    + destruct (IH 0%nat (cur +:+ String a "")) as (field & fields & ->).
      exists (String a field), fields. by rewrite append_assoc.
Qed.

(** ** The time-slot encoder, further *)

Lemma has_char_append (c : ascii) (s t : string) :
  has_char c (s +:+ t) = has_char c s || has_char c t.
Proof.
  induction s as [|a s IH]; [done|].
  rewrite append_cons. simpl. by rewrite IH, orb_assoc.
Qed.

(** A successful encoding, taken apart. *)
Lemma remap_time_code_Ok_inv (time_code week_day code : string) :
  remap_time_code time_code week_day = Ok code →
  ∃ hour period,
    parse_time_code time_code = Ok (hour, period)
    ∧ 7 ≤ to_24_hour hour period ≤ 19
    ∧ days_mapping_get (strip week_day) ≠ -1
    ∧ code = format_code (days_mapping_get (strip week_day))
               (to_24_hour hour period - 7).
Proof.
  rewrite remap_time_code_cases.
  destruct (parse_time_code time_code) as [[hour period]|e]; [|done].
  cbv zeta.
  destruct (Z.ltb_spec (to_24_hour hour period) 7); [done|].
  destruct (Z.gtb_spec (to_24_hour hour period) 19); [done|]. simpl.
  destruct (Z.eqb_spec (days_mapping_get (strip week_day)) (-1)); [done|].
  intros [= <-]. exists hour, period. split_and!; [done|lia|lia|done|done].
Qed.

(** Different weekday names have different indices. *)
Lemma days_mapping_get_inj (week_day week_day' : string) :
  days_mapping_get week_day ≠ -1 →
  days_mapping_get week_day = days_mapping_get week_day' →
  week_day = week_day'.
Proof.
  unfold days_mapping_get.
  repeat match goal with
         | |- context [String.eqb ?a ?b] => destruct (String.eqb_spec a b)
         end; intros; subst; first [done|lia].
Qed.

Lemma format_code_day (d h : Z) :
  0 ≤ d ≤ 6 →
  ∃ c, format_code d h = String c (String "_" (pretty h))
       ∧ Z.of_N (code_point c) = 48 + d.
Proof.
  intros Hd. unfold format_code.
  assert (d = 0 ∨ d = 1 ∨ d = 2 ∨ d = 3 ∨ d = 4 ∨ d = 5 ∨ d = 6)
    as [->|[->|[->|[->|[->|[->| ->]]]]]] by lia.
  - by exists "0"%char.
  - by exists "1"%char.
  - by exists "2"%char.
  - by exists "3"%char.
  - by exists "4"%char.
  - by exists "5"%char.
  - by exists "6"%char.
Qed.

(** The slot code determines the weekday index and the hour offset. *)
Lemma format_code_inj (d h d' h' : Z) :
  0 ≤ d ≤ 6 → 0 ≤ d' ≤ 6 →
  format_code d h = format_code d' h' → d = d' ∧ h = h'.
Proof.
  intros Hd Hd'.
  destruct (format_code_day d h Hd) as (c & -> & Hc).
  destruct (format_code_day d' h' Hd') as (c' & -> & Hc').
  intros [= -> Hh]. split; [lia|]. by apply (inj pretty).
Qed.

(** Two encodings that return the same code read the same weekday and
    the same hour. *)
Lemma remap_time_code_same_code (time_code week_day time_code' week_day' : string)
    (hour hour' : Z) (period period' code : string) :
  parse_time_code time_code = Ok (hour, period) →
  parse_time_code time_code' = Ok (hour', period') →
  remap_time_code time_code week_day = Ok code →
  remap_time_code time_code' week_day' = Ok code →
  strip week_day = strip week_day'
  ∧ to_24_hour hour period = to_24_hour hour' period'.
Proof.
  intros Hparse Hparse' Hcode Hcode'.
  apply remap_time_code_Ok_inv in Hcode as (h & p & Hp & Hh & Hd & ->).
  apply remap_time_code_Ok_inv in Hcode' as (h' & p' & Hp' & Hh' & Hd' & Heq).
  rewrite Hparse in Hp. rewrite Hparse' in Hp'.
  injection Hp as <- <-. injection Hp' as <- <-.
  pose proof (days_mapping_get_range (strip week_day)) as [?|Hr]; [done|].
  pose proof (days_mapping_get_range (strip week_day')) as [?|Hr']; [done|].
  rewrite !elem_of_cons in Hr. rewrite !elem_of_cons in Hr'.
  rewrite elem_of_nil in Hr. rewrite elem_of_nil in Hr'.
  apply format_code_inj in Heq as [Hday Hhour]; [|lia..].
  split; [|lia]. by apply days_mapping_get_inj.
Qed.

(** X1.  Two encodings that succeed return the same slot code exactly
    when the weekdays, trimmed, are the same name and the 24-hour hours
    are equal. *)
Theorem slot_codes_equal_iff (time_code week_day time_code' week_day' : string)
    (hour hour' : Z) (period period' code code' : string) :
  parse_time_code time_code = Ok (hour, period) →
  parse_time_code time_code' = Ok (hour', period') →
  remap_time_code time_code week_day = Ok code →
  remap_time_code time_code' week_day' = Ok code' →
  code = code'
  ↔ strip week_day = strip week_day'
    ∧ to_24_hour hour period = to_24_hour hour' period'.
Proof.
  intros Hparse Hparse' Hcode Hcode'. split.
  - intros <-.
    by apply (remap_time_code_same_code time_code week_day time_code'
                week_day' hour hour' period period' code).
  - intros [Hday Hhour].
    apply remap_time_code_Ok_inv in Hcode as (h & p & Hp & _ & _ & ->).
    apply remap_time_code_Ok_inv in Hcode' as (h' & p' & Hp' & _ & _ & ->).
    rewrite Hparse in Hp. rewrite Hparse' in Hp'.
    injection Hp as <- <-. injection Hp' as <- <-.
    by rewrite Hday, Hhour.
Qed.

(** X2.  On a 12-hour clock reading with period AM or PM and a known
    weekday: 7 AM to 11 AM are encoded with offsets 0 to 4, 12 PM with
    offset 5, 1 PM to 7 PM with offsets 6 to 12; 12 AM to 6 AM and 8 PM to
    11 PM raise the out-of-range error. *)
Theorem twelve_hour_clock_offsets (time_code week_day : string)
    (hour : Z) (period : string) :
  parse_time_code time_code = Ok (hour, period) →
  1 ≤ hour ≤ 12 →
  period = "AM" ∨ period = "PM" →
  days_mapping_get (strip week_day) ≠ -1 →
  remap_time_code time_code week_day
  = let d := days_mapping_get (strip week_day) in
    if String.eqb period "AM" then
      if (7 <=? hour) && (hour <=? 11) then Ok (format_code d (hour - 7))
      else Raise ValueError_time_range
    else
      if hour =? 12 then Ok (format_code d 5)
      else if hour <=? 7 then Ok (format_code d (hour + 5))
      else Raise ValueError_time_range.
Proof.
  intros Hparse Hhour Hperiod Hd.
  rewrite remap_time_code_cases, Hparse. cbv zeta.
  rewrite (proj2 (Z.eqb_neq _ _) Hd). unfold to_24_hour.
  destruct Hperiod as [-> | ->]; simpl;
    destruct (Z.eqb_spec hour 12) as [->|Hne]; simpl; try reflexivity.
  - destruct (Z.leb_spec 7 hour), (Z.leb_spec hour 11),
      (Z.ltb_spec hour 7), (Z.gtb_spec hour 19); simpl; try lia; reflexivity.
  - destruct (Z.leb_spec hour 7), (Z.ltb_spec (hour + 12) 7),
      (Z.gtb_spec (hour + 12) 19); simpl; try lia.
    + do 2 f_equal. lia.
    + reflexivity.
Qed.

(** X3.  In a clock string "H:M P" only the hour and the period are read:
    what stands between the colon and the space is dropped, so two
    start times that differ in the minutes get the same slot code, or
    the same error. *)
Theorem time_code_minutes_ignored (hh mm mm' pp week_day : string) :
  has_char " " hh = false → has_char ":" hh = false →
  has_char " " mm = false → has_char " " mm' = false →
  has_char " " pp = false →
  parse_time_code (hh +:+ ":" +:+ mm +:+ " " +:+ pp)
  = (h ← int hh; Ok (h, pp))
  ∧ remap_time_code (hh +:+ ":" +:+ mm +:+ " " +:+ pp) week_day
    = remap_time_code (hh +:+ ":" +:+ mm' +:+ " " +:+ pp) week_day.
Proof.
  intros Hh_space Hh_colon Hm Hm' Hp.
  assert (∀ m, has_char " " m = false →
            parse_time_code (hh +:+ ":" +:+ m +:+ " " +:+ pp)
            = (h ← int hh; Ok (h, pp))) as Hparse.
  { intros m Hm0. unfold parse_time_code, split.
    replace (hh +:+ ":" +:+ m +:+ " " +:+ pp)
      with ((hh +:+ ":" +:+ m) +:+ String " " pp)
      by (by rewrite !append_assoc).
    rewrite split_from_field, split_from_last by
      (rewrite ?has_char_append; simpl; by rewrite ?Hh_space, ?Hm0, ?Hp).
    rewrite !append_empty_l.
    change (hh +:+ ":" +:+ m) with (hh +:+ String ":" m).
    rewrite split_from_field by done. by rewrite append_empty_l. }
  split; [by apply Hparse|].
  by rewrite !remap_time_code_cases, !Hparse.
Qed.

(** X4.  Whitespace around the weekday is not significant: the encoder
    returns the same code, or raises the same error, with or without it. *)
Theorem week_day_padding_ignored (time_code before week_day after : string) :
  all_space before = true → all_space after = true →
  remap_time_code time_code (before +:+ week_day +:+ after)
  = remap_time_code time_code week_day.
Proof.
  intros Hb Ha. by rewrite !remap_time_code_cases, strip_padded.
Qed.

(** ** Catalog loading *)

Lemma session_lines_acc (lines : list string) :
  ∀ acc, session_lines lines acc = (acc ++ session_lines lines [])%list.
Proof.
  induction lines as [|line lines IH]; intros acc; cbn [session_lines].
  - by rewrite app_nil_r.
  - cbv zeta. destruct (String.eqb (strip line) ""); [apply IH|].
    destruct (session_of_line (strip line)) as [s|e].
    + rewrite (IH (acc ++ [s])%list), (IH ([] ++ [s])%list).
      by rewrite <-app_assoc.
    + by rewrite app_nil_r.
Qed.

Lemma instructor_pref_lines_acc (lines : list string) :
  ∀ acc,
    instructor_pref_lines lines acc
    = (acc ++ instructor_pref_lines lines [])%list.
Proof.
  induction lines as [|line lines IH]; intros acc; cbn [instructor_pref_lines].
  - by rewrite app_nil_r.
  - cbv zeta. destruct (String.eqb (strip line) ""); [apply IH|].
    destruct (instructor_pref_of_line (strip line)) as [p|e].
    + rewrite (IH (acc ++ [p])%list), (IH ([] ++ [p])%list).
      by rewrite <-app_assoc.
    + by rewrite app_nil_r.
Qed.

(** X5.  A line that cannot be read ends the loading of its file without
    an error: the records of the lines before it are returned, and the
    lines after it are not looked at, in both loaders. *)
Theorem loading_stops_at_unreadable_line :
  (∀ (lines rest : list string) (line : string) (acc : list Session.t),
     session_line_fails line →
     session_lines (lines ++ line :: rest) acc = session_lines lines acc)
  ∧ (∀ (lines rest : list string) (line : string)
       (acc : list InstructorPref.t),
       instructor_pref_line_fails line →
       instructor_pref_lines (lines ++ line :: rest) acc
       = instructor_pref_lines lines acc).
Proof.
  split.
  - intros lines rest bad acc [Hblank [e He]]. revert acc.
    induction lines as [|line lines IH]; intros acc; cbn [app session_lines].
    + cbv zeta. rewrite (proj2 (String.eqb_neq _ _) Hblank), He. done.
    + cbv zeta. destruct (String.eqb (strip line) ""); [apply IH|].
      destruct (session_of_line (strip line)); [apply IH|done].
  - intros lines rest bad acc [Hblank [e He]]. revert acc.
    induction lines as [|line lines IH]; intros acc;
      cbn [app instructor_pref_lines].
    + cbv zeta. rewrite (proj2 (String.eqb_neq _ _) Hblank), He. done.
    + cbv zeta. destruct (String.eqb (strip line) ""); [apply IH|].
      destruct (instructor_pref_of_line (strip line)); [apply IH|done].
Qed.

(** X6.  When every line of a file is blank or readable, the loader
    returns one record per non-blank line, in the order of the lines;
    blank lines contribute nothing. *)
Theorem loading_readable_lines :
  (∀ lines : list string,
     Forall (λ line, ¬ session_line_fails line) lines →
     session_lines lines [] = omap session_record lines)
  ∧ (∀ lines : list string,
       Forall (λ line, ¬ instructor_pref_line_fails line) lines →
       instructor_pref_lines lines [] = omap instructor_pref_record lines).
Proof.
  split.
  - induction 1 as [|line lines Hline _ IH]; [done|].
    cbn [session_lines omap list_omap]. cbv zeta. unfold session_record at 1.
    destruct (String.eqb_spec (strip line) "") as [Hb|Hb]; [exact IH|].
    destruct (session_of_line (strip line)) as [s|e] eqn:Hs.
    + rewrite session_lines_acc, IH. done.
    + destruct Hline. split; [done|by exists e].
  - induction 1 as [|line lines Hline _ IH]; [done|].
    cbn [instructor_pref_lines omap list_omap]. cbv zeta.
    unfold instructor_pref_record at 1.
    destruct (String.eqb_spec (strip line) "") as [Hb|Hb]; [exact IH|].
    destruct (instructor_pref_of_line (strip line)) as [p|e] eqn:Hp.
    + rewrite instructor_pref_lines_acc, IH. done.
    + destruct Hline. split; [done|by exists e].
Qed.

(** Where the records of a loaded catalog come from. *)
Lemma session_lines_elem (lines : list string) :
  ∀ (acc : list Session.t) (s : Session.t),
    s ∈ session_lines lines acc →
    s ∈ acc ∨ ∃ line, line ∈ lines ∧ strip line ≠ ""
                      ∧ session_of_line (strip line) = Ok s.
Proof.
  induction lines as [|line lines IH]; intros acc s; cbn [session_lines].
  - by left.
  - cbv zeta. destruct (String.eqb_spec (strip line) "") as [Hb|Hb].
    + intros [?|(l & ? & ?)]%IH; [by left|].
      right. exists l. split; [by apply list_elem_of_further|done].
    + destruct (session_of_line (strip line)) as [s'|e] eqn:Hs; [|by left].
      intros [[?| ->%list_elem_of_singleton]%elem_of_app|(l & ? & ?)]%IH.
      * by left.
      * right. exists line. split; [apply list_elem_of_here|done].
      * right. exists l. split; [by apply list_elem_of_further|done].
Qed.

Lemma instructor_pref_lines_elem (lines : list string) :
  ∀ (acc : list InstructorPref.t) (p : InstructorPref.t),
    p ∈ instructor_pref_lines lines acc →
    p ∈ acc ∨ ∃ line, line ∈ lines ∧ strip line ≠ ""
                      ∧ instructor_pref_of_line (strip line) = Ok p.
Proof.
  induction lines as [|line lines IH]; intros acc p;
    cbn [instructor_pref_lines].
  - by left.
  - cbv zeta. destruct (String.eqb_spec (strip line) "") as [Hb|Hb].
    + intros [?|(l & ? & ?)]%IH; [by left|].
      right. exists l. split; [by apply list_elem_of_further|done].
    + destruct (instructor_pref_of_line (strip line)) as [p'|e] eqn:Hp;
        [|by left].
      intros [[?| ->%list_elem_of_singleton]%elem_of_app|(l & ? & ?)]%IH.
      * by left.
      * right. exists line. split; [apply list_elem_of_here|done].
      * right. exists l. split; [by apply list_elem_of_further|done].
Qed.

Lemma session_init_Ok_inv (week_day start_time end_time : string)
    (s : Session.t) :
  Session.init week_day start_time end_time = Ok s →
  Session.week_day s = week_day ∧ Session.start_time_code s = start_time
  ∧ Session.end_time_code s = end_time
  ∧ remap_time_code start_time week_day
    = Ok (Session.encoded_start_time_code s).
Proof.
  unfold Session.init.
  destruct (remap_time_code start_time week_day) as [code|e]; [|done].
  by intros [= <-].
Qed.

Lemma instructor_pref_init_Ok_inv (uid name week_day start_time end_time : string)
    (p : InstructorPref.t) :
  InstructorPref.init uid name week_day start_time end_time = Ok p →
  InstructorPref.uid p = uid ∧ InstructorPref.name p = name
  ∧ InstructorPref.week_day p = week_day
  ∧ InstructorPref.start_time_code p = start_time
  ∧ InstructorPref.end_time_code p = end_time
  ∧ remap_time_code start_time week_day
    = Ok (InstructorPref.encoded_start_time_code p).
Proof.
  unfold InstructorPref.init.
  destruct (remap_time_code start_time week_day) as [code|e]; [|done].
  by intros [= <-].
Qed.

Lemma loaded_session_slot_code (fs : files) (file_path : string)
    (s : Session.t) :
  s ∈ parse_inputSESSION_text fs file_path →
  remap_time_code (Session.start_time_code s) (Session.week_day s)
  = Ok (Session.encoded_start_time_code s).
Proof.
  unfold parse_inputSESSION_text.
  destruct (fs file_path) as [lines|]; [|by intros ?%elem_of_nil].
  intros [?%elem_of_nil|(line & _ & _ & Hs)]%session_lines_elem; [done|].
  unfold session_of_line in Hs.
  destruct (split tab (strip line)) as [|day [|range [|? ?]]]; try done.
  destruct (split " - " range) as [|start [|stop [|? ?]]]; try done.
  apply session_init_Ok_inv in Hs as (-> & -> & _ & Hcode). done.
Qed.

Lemma loaded_instructor_pref_slot_code (fs : files) (file_path : string)
    (p : InstructorPref.t) :
  p ∈ parse_inputINSTRUCTOR_PREF_text fs file_path →
  remap_time_code (InstructorPref.start_time_code p)
    (InstructorPref.week_day p)
  = Ok (InstructorPref.encoded_start_time_code p).
Proof.
  unfold parse_inputINSTRUCTOR_PREF_text.
  destruct (fs file_path) as [lines|]; [|by intros ?%elem_of_nil].
  intros [?%elem_of_nil|(line & _ & _ & Hp)]%instructor_pref_lines_elem;
    [done|].
  unfold instructor_pref_of_line in Hp.
  destruct (split tab (strip line))
    as [|uid [|name [|day [|range [|? ?]]]]]; try done.
  destruct (split " - " range) as [|start [|stop [|? ?]]]; try done.
  apply instructor_pref_init_Ok_inv in Hp as (_ & _ & -> & -> & _ & Hcode).
  done.
Qed.

(** X7.  Every record of a loaded catalog carries the slot code of its own
    weekday and start time: encoding these two fields succeeds and gives
    the record's code, for sessions and for preferences, whatever the
    files hold. *)
Theorem loaded_records_carry_their_slot_code (fs : files) (file_path : string) :
  (∀ s, s ∈ parse_inputSESSION_text fs file_path →
        remap_time_code (Session.start_time_code s) (Session.week_day s)
        = Ok (Session.encoded_start_time_code s))
  ∧ (∀ p, p ∈ parse_inputINSTRUCTOR_PREF_text fs file_path →
          remap_time_code (InstructorPref.start_time_code p)
            (InstructorPref.week_day p)
          = Ok (InstructorPref.encoded_start_time_code p)).
Proof.
  split.
  - apply loaded_session_slot_code.
  - apply loaded_instructor_pref_slot_code.
Qed.

(** The first field of a stripped, non-blank line is not empty. *)
Lemma split_tab_first_field (line : string) :
  no_leading_space line → line ≠ "" →
  ∃ field fields, split tab line = field :: fields ∧ field ≠ "".
Proof.
  destruct line as [|a line]; [done|]. simpl. intros Ha _.
  unfold split, tab. cbn [split_from]. rewrite prefix_char.
  destruct (Ascii.eqb_spec a "009"%char) as [->|_]; [done|].
  destruct (split_from_head (String "009"%char "") line 0
              ("" +:+ String a "")) as (field & fields & ->).
  by exists (("" +:+ String a "") +:+ field), fields.
Qed.

(** X8.  A preference read from a file never has an empty [uid]: the
    line is stripped before it is split, so its first field begins with
    a character that is not whitespace. *)
Theorem loaded_instructor_prefs_have_uid (fs : files) (file_path : string)
    (p : InstructorPref.t) :
  p ∈ parse_inputINSTRUCTOR_PREF_text fs file_path →
  InstructorPref.uid p ≠ "".
Proof.
  unfold parse_inputINSTRUCTOR_PREF_text.
  destruct (fs file_path) as [lines|]; [|by intros ?%elem_of_nil].
  intros [?%elem_of_nil|(line & _ & Hblank & Hp)]%instructor_pref_lines_elem;
    [done|].
  destruct (split_tab_first_field (strip line) (strip_no_leading_space line)
              Hblank) as (field & fields & Hsplit & Hfield).
  unfold instructor_pref_of_line in Hp. rewrite Hsplit in Hp.
  destruct fields as [|name [|day [|range [|? ?]]]]; try done.
  destruct (split " - " range) as [|start [|stop [|? ?]]]; try done.
  apply instructor_pref_init_Ok_inv in Hp as (-> & _). done.
Qed.

Lemma append_not_empty_r (s t : string) : t ≠ "" → s +:+ t ≠ "".
Proof. destruct s; [done|]. by rewrite append_cons. Qed.

Lemma rstrip_append_keep (s t : string) :
  rstrip t ≠ "" → rstrip (s +:+ t) = s +:+ rstrip t.
Proof.
  intros Ht. induction s as [|a s IH]; [done|].
  rewrite !append_cons, rstrip_cons, IH.
  by rewrite decide_False by (by apply append_not_empty_r).
Qed.

Lemma ends_line_rstrip (s : string) :
  ends_line s = true → rstrip s = s ∧ s ≠ "".
Proof.
  unfold ends_line, rstrip. intros Hs. split.
  - destruct (String.rev s) as [|a r] eqn:Hrev; [done|].
    simpl in Hs. simpl. destruct (is_space a); [done|].
    by rewrite <-Hrev, rev_involutive.
  - by intros ->.
Qed.

(** What [strip] leaves of a line that begins with [first], goes on with
    [middle], ends with [last], and is followed by whitespace only. *)
Lemma strip_line (first middle last ending : string) :
  starts_line first = true → ends_line last = true →
  all_space ending = true →
  strip (first +:+ middle +:+ last +:+ ending) = first +:+ middle +:+ last
  ∧ first +:+ middle +:+ last ≠ "".
Proof.
  intros Hfirst [Hlast Hne]%ends_line_rstrip Hending.
  destruct first as [|a first]; [done|]. simpl in Hfirst.
  apply negb_true_iff in Hfirst.
  split; [|by rewrite append_cons].
  unfold strip. rewrite lstrip_fixed by (by rewrite append_cons).
  rewrite <-(append_assoc (String a first) middle),
    <-(append_assoc (String a first) middle last).
  rewrite rstrip_append_keep; rewrite rstrip_append_space by done.
  - by rewrite Hlast.
  - by rewrite Hlast.
Qed.

Lemma prefix_cons (c a : ascii) (p s : string) :
  String.prefix (String c p) (String a s) = Ascii.eqb c a && String.prefix p s.
Proof.
  change (String.prefix (String c p) (String a s))
    with (if ascii_dec c a then String.prefix p s else false).
  destruct (ascii_dec c a) as [->|Hne].
  - by rewrite Ascii.eqb_refl.
  - by rewrite (proj2 (Ascii.eqb_neq _ _) Hne).
Qed.

Lemma prefix_empty (s : string) : String.prefix "" s = true.
Proof. by destruct s. Qed.

Lemma prefix_dash_false (a : ascii) (s t : string) :
  has_char "-" (String a s) = false →
  String.prefix " - " (String a (s +:+ String " " t)) = false.
Proof.
  intros Hs. simpl in Hs. apply orb_false_iff in Hs as [_ Hs].
  rewrite prefix_cons. destruct (Ascii.eqb " " a); [|done]. cbn [andb].
  destruct s as [|b s].
  - rewrite append_empty_l. by rewrite prefix_cons.
  - rewrite append_cons, prefix_cons.
    simpl in Hs. apply orb_false_iff in Hs as [Hb _].
    by rewrite Ascii.eqb_sym, Hb.
Qed.

Lemma prefix_dash_none (s : string) :
  has_char "-" s = false → String.prefix " - " s = false.
Proof.
  destruct s as [|a [|b s]]; [done| |].
  - intros _. rewrite prefix_cons. by rewrite andb_false_r.
  - intros Hs. simpl in Hs.
    apply orb_false_iff in Hs as [_ [Hb _]%orb_false_iff].
    rewrite !prefix_cons, (Ascii.eqb_sym "-" b), Hb.
    by rewrite andb_false_r.
Qed.

Lemma split_dash_none (field cur : string) :
  has_char "-" field = false →
  split_from " - " 0 cur field = [cur +:+ field].
Proof.
  revert cur. induction field as [|a field IH]; intros cur Hc.
  - by rewrite append_empty_r.
  - cbn [split_from]. rewrite (prefix_dash_none _ Hc).
    simpl in Hc. apply orb_false_iff in Hc as [_ Hc].
    by rewrite (IH _ Hc), append_assoc.
Qed.

(** [time_range.split(" - ")] on a start and an end without a dash. *)
Lemma split_dash_field (start stop cur : string) :
  has_char "-" start = false → has_char "-" stop = false →
  split_from " - " 0 cur (start +:+ " - " +:+ stop) = [cur +:+ start; stop].
Proof.
  intros Hstart Hstop. revert cur Hstart.
  induction start as [|a start IH]; intros cur Hstart.
  - rewrite append_empty_l, append_empty_r.
    change (" - " +:+ stop) with (String " " (String "-" (String " " stop))).
    cbn [split_from].
    replace (String.prefix " - " (String " " (String "-" (String " " stop))))
      with true by (by rewrite !prefix_cons, prefix_empty).
    cbn [split_from String.length Nat.sub].
    by rewrite (split_dash_none stop "" Hstop).
  - rewrite append_cons. cbn [split_from].
    change (" - " +:+ stop) with (String " " ("- " +:+ stop)).
    rewrite (prefix_dash_false a start _ Hstart).
    simpl in Hstart. apply orb_false_iff in Hstart as [_ Hstart].
    change (String " " ("- " +:+ stop)) with (" - " +:+ stop).
    by rewrite (IH _ Hstart), append_assoc.
Qed.

Lemma clock_field_chars (s : string) :
  clock_field s = true → has_char "009" s = false ∧ has_char "-" s = false.
Proof.
  unfold clock_field. intros [?%negb_true_iff ?%negb_true_iff]%andb_true_iff.
  done.
Qed.

Lemma split_time_range (start stop : string) :
  clock_field start = true → clock_field stop = true →
  has_char "009" (start +:+ " - " +:+ stop) = false
  ∧ split " - " (start +:+ " - " +:+ stop) = [start; stop].
Proof.
  intros [Ht Hd]%clock_field_chars [Ht' Hd']%clock_field_chars. split.
  - rewrite !has_char_append, Ht, Ht'. done.
  - unfold split. by rewrite split_dash_field.
Qed.

Lemma split_char_field (c : ascii) (field rest : string) :
  has_char c field = false →
  split (String c "") (field +:+ String c rest)
  = field :: split (String c "") rest.
Proof. intros Hc. unfold split. by rewrite split_from_field. Qed.

Lemma split_char_last (c : ascii) (field : string) :
  has_char c field = false → split (String c "") field = [field].
Proof. intros Hc. unfold split. by rewrite split_from_last. Qed.

(** X9.  A well-formed line is read as written: the line
    "day<TAB>start - end" of the session file gives the session built
    from these three fields, and the line
    "uid<TAB>name<TAB>day<TAB>start - end" of the preference file the
    preference built from these five; when the constructor raises, the
    loading ends there. *)
Theorem well_formed_lines_are_read :
  (∀ (day start stop ending : string) (rest : list string)
     (acc : list Session.t),
     starts_line day = true → plain_field day = true →
     clock_field start = true → clock_field stop = true →
     ends_line stop = true → all_space ending = true →
     session_lines
       ((day +:+ tab +:+ start +:+ " - " +:+ stop +:+ ending) :: rest) acc
     = match Session.init day start stop with
       | Ok s => session_lines rest (acc ++ [s])
       | Raise _ => acc
       end)
  ∧ (∀ (uid name day start stop ending : string) (rest : list string)
       (acc : list InstructorPref.t),
       starts_line uid = true → plain_field uid = true →
       plain_field name = true → plain_field day = true →
       clock_field start = true → clock_field stop = true →
       ends_line stop = true → all_space ending = true →
       instructor_pref_lines
         ((uid +:+ tab +:+ name +:+ tab +:+ day +:+ tab
           +:+ start +:+ " - " +:+ stop +:+ ending) :: rest) acc
       = match InstructorPref.init uid name day start stop with
         | Ok p => instructor_pref_lines rest (acc ++ [p])
         | Raise _ => acc
         end).
Proof.
  split.
  - intros day start stop ending rest acc Hday Hday_tab Hstart Hstop Hend Hending.
    apply negb_true_iff in Hday_tab.
    destruct (split_time_range start stop Hstart Hstop) as [Hrange_tab Hrange].
    destruct (strip_line day (tab +:+ start +:+ " - ") stop ending)
      as [Hstrip Hne]; [done..|].
    cbn [session_lines]. cbv zeta.
    replace (day +:+ tab +:+ start +:+ " - " +:+ stop +:+ ending)
      with (day +:+ (tab +:+ start +:+ " - ") +:+ stop +:+ ending)
      by (by rewrite !append_assoc).
    rewrite Hstrip, (proj2 (String.eqb_neq _ _) Hne).
    unfold session_of_line, tab.
    replace (day +:+ (String "009" "" +:+ start +:+ " - ") +:+ stop)
      with (day +:+ String "009" (start +:+ " - " +:+ stop))
      by (by rewrite !append_assoc).
    rewrite split_char_field, split_char_last by done.
    rewrite Hrange. done.
  - intros uid name day start stop ending rest acc
      Huid Huid_tab Hname_tab Hday_tab Hstart Hstop Hend Hending.
    apply negb_true_iff in Huid_tab, Hname_tab, Hday_tab.
    destruct (split_time_range start stop Hstart Hstop) as [Hrange_tab Hrange].
    destruct (strip_line uid
                (tab +:+ name +:+ tab +:+ day +:+ tab +:+ start +:+ " - ")
                stop ending) as [Hstrip Hne]; [done..|].
    cbn [instructor_pref_lines]. cbv zeta.
    replace (uid +:+ tab +:+ name +:+ tab +:+ day +:+ tab
             +:+ start +:+ " - " +:+ stop +:+ ending)
      with (uid +:+ (tab +:+ name +:+ tab +:+ day +:+ tab +:+ start +:+ " - ")
            +:+ stop +:+ ending)
      by (by rewrite !append_assoc).
    rewrite Hstrip, (proj2 (String.eqb_neq _ _) Hne).
    unfold instructor_pref_of_line, tab.
    replace (uid +:+ (String "009" "" +:+ name +:+ String "009" "" +:+ day
                      +:+ String "009" "" +:+ start +:+ " - ") +:+ stop)
      with (uid +:+ String "009"
              (name +:+ String "009"
                 (day +:+ String "009" (start +:+ " - " +:+ stop))))
      by (by rewrite !append_assoc).
    rewrite !split_char_field, split_char_last by done.
    rewrite Hrange. done.
Qed.

(** ** Candidate generation, further *)

Lemma truthy_try_assign_iff (p : InstructorPref.t) (s : Session.t) :
  truthy (try_assign_instructor p s) = true
  ↔ InstructorPref.encoded_start_time_code p = Session.encoded_start_time_code s
    ∧ InstructorPref.uid p ≠ "".
Proof.
  split; [apply truthy_try_assign|].
  intros [Hcode Huid]. unfold try_assign_instructor.
  rewrite (proj2 (String.eqb_eq _ _) Hcode). simpl.
  by rewrite (proj2 (String.eqb_neq _ _) Huid).
Qed.

(** The scan of one session stops at the first available preference of
    the shuffled order, and runs to the end only when none is. *)
Lemma scan_instructor_prefs_first_fit (prefs : list InstructorPref.t)
    (session : Session.t) (assigned : candidate) (indices : list nat)
    (entry : option nat) :
  scan_instructor_prefs prefs session assigned indices = Ok entry →
  match entry with
  | Some idx =>
      ∃ before after,
        indices = (before ++ idx :: after)%list
        ∧ available prefs session assigned idx
        ∧ ∀ j, j ∈ before → ¬ available prefs session assigned j
  | None => ∀ j, j ∈ indices → ¬ available prefs session assigned j
  end.
Proof.
  revert entry. induction indices as [|idx rest IH]; intros entry; simpl.
  - intros [= <-]. by intros j ?%elem_of_nil.
  - unfold index. destruct (prefs !! idx) as [p|] eqn:Hp; [|done]. simpl.
    destruct (truthy (try_assign_instructor p session)
              && negb (contains assigned idx)) eqn:Htest.
    + intros [= <-]. apply andb_true_iff in Htest as [Ht Hfresh].
      apply truthy_try_assign_iff in Ht as [Hcode Huid].
      apply negb_true_iff, bool_decide_eq_false in Hfresh.
      exists [], rest. split_and!; [done| |by intros j ?%elem_of_nil].
      split; [|done]. by exists p.
    + assert (¬ available prefs session assigned idx) as Hidx.
      { intros [(p' & Hp' & Hcode & Huid) Hfresh].
        rewrite Hp in Hp'. injection Hp' as <-.
        apply andb_false_iff in Htest as [Ht|Hc].
        - by rewrite (proj2 (truthy_try_assign_iff p session)) in Ht.
        - apply negb_false_iff, bool_decide_eq_true in Hc. done. }
      intros Hscan. specialize (IH _ Hscan).
      destruct entry as [found|].
      * destruct IH as (before & after & -> & Hav & Hbefore).
        exists (idx :: before), after. split_and!; [done|done|].
        intros j [->|?]%elem_of_cons; [done|by apply Hbefore].
      * intros j [->|?]%elem_of_cons; [done|by apply IH].
Qed.

(** The candidate is built entry by entry: the entry of a session is the
    outcome of its scan against the entries before it. *)
Lemma assign_sessions_entries (prefs : list InstructorPref.t)
    (indices : list nat) (sessions : list Session.t) :
  ∀ (assigned c : candidate),
    assign_sessions prefs indices sessions assigned = Ok c →
    ∃ entries,
      c = (assigned ++ entries)%list
      ∧ ∀ k s, sessions !! k = Some s →
          ∃ entry,
            entries !! k = Some entry
            ∧ scan_instructor_prefs prefs s (assigned ++ take k entries)
                indices = Ok entry.
Proof.
  induction sessions as [|session sessions IH]; intros assigned c; simpl.
  - intros [= <-]. exists []. split; [by rewrite app_nil_r|]. done.
  - destruct (scan_instructor_prefs prefs session assigned indices)
      as [entry|e] eqn:Hscan; [|done].
    simpl. intros (entries & -> & Hentries)%IH.
    exists (entry :: entries). split; [by rewrite <-app_assoc|].
    intros [|k] s Hs; simpl in *.
    + injection Hs as <-. exists entry. by rewrite app_nil_r.
    + destruct (Hentries k s Hs) as (e' & He' & Hscan').
      exists e'. split; [done|]. by rewrite <-app_assoc in Hscan'.
Qed.

Lemma filled_length (c : candidate) : (length (filled c) ≤ length c)%nat.
Proof.
  induction c as [|[i|] c IH]; simpl; lia.
Qed.

(** No more entries are filled than the catalog has preferences. *)
Lemma filled_length_catalog (prefs : list InstructorPref.t) (c : candidate) :
  in_catalog prefs c → NoDup (filled c) →
  (length (filled c) ≤ length prefs)%nat.
Proof.
  intros Hcat Hnodup.
  rewrite <-(length_seq (length prefs) 0).
  apply submseteq_length, NoDup_submseteq; [done|].
  intros i Hi%elem_of_filled. apply elem_of_seq. apply Hcat in Hi. lia.
Qed.

Lemma in_catalog_empty (c : candidate) :
  in_catalog [] c → c = replicate (length c) None.
Proof.
  intros Hcat. induction c as [|entry c IH]; [done|].
  destruct entry as [i|].
  - specialize (Hcat i (list_elem_of_here _ _)). simpl in Hcat. lia.
  - simpl. f_equal. apply IH. intros i Hi. apply Hcat.
    by apply list_elem_of_further.
Qed.

(** ** Scoring, further *)

Lemma unfilled_count_length (c : candidate) :
  (unfilled_count c ≤ length c)%nat.
Proof. unfold unfilled_count. apply length_filter. Qed.

Lemma rewarded_count_length (prefs : list InstructorPref.t) (c : candidate) :
  (rewarded_count prefs c ≤ length c - 1)%nat.
Proof.
  unfold rewarded_count. destruct c as [|entry c]; [done|].
  cbn [length seq]. rewrite filter_cons.
  rewrite decide_False by done.
  etrans; [apply length_filter|]. rewrite length_seq. lia.
Qed.

(** X12.  The score of a candidate over the catalog lies between -5 times
    its length and twice its length less one; the score of the empty
    candidate is 0. *)
Theorem candidate_score_bounds (prefs : list InstructorPref.t) (c : candidate) :
  in_catalog prefs c →
  ∃ score,
    candidate_score prefs c = Ok score
    ∧ -5 * Z.of_nat (length c) ≤ score ≤ 2 * Z.of_nat (length c - 1)
    ∧ (c = [] → score = 0).
Proof.
  intros Hcat. eexists. split; [by apply candidate_score_sum|].
  pose proof (unfilled_count_length c).
  pose proof (rewarded_count_length prefs c).
  split; [lia|]. by intros ->.
Qed.

(** ** Projection *)

(** The loop of [map_assignments] over entries that are positions of the
    two catalogs: it writes one row per entry when all are filled, and
    raises at the first unfilled one. *)
Lemma map_from_spec (sessions : list Session.t) (prefs : list InstructorPref.t)
    (remaining : candidate) :
  ∀ (idx : nat) (mappings : string),
    (idx + length remaining ≤ length sessions)%nat →
    in_catalog prefs remaining →
    if decide (Forall is_Some remaining) then
      ∃ rows,
        map_from sessions prefs idx remaining mappings
        = Ok (mappings +:+ join_rows rows)
        ∧ length rows = length remaining
        ∧ ∀ k i, remaining !! k = Some (Some i) →
            ∃ s p, sessions !! (idx + k)%nat = Some s ∧ prefs !! i = Some p
                   ∧ rows !! k = Some (format_row s p)
    else
      map_from sessions prefs idx remaining mappings
      = Raise TypeError_none_index.
Proof.
  induction remaining as [|entry remaining IH]; intros idx mappings Hlen Hcat.
  - rewrite decide_True by constructor.
    exists []. simpl. by rewrite append_empty_r.
  - cbn [length] in Hlen.
    destruct (lookup_lt_is_Some_2 sessions idx) as [s Hs]; [lia|].
    destruct entry as [i|]; cycle 1.
    { rewrite decide_False by (by intros [[? [=]] _]%Forall_cons).
      cbn [map_from]. unfold index. by rewrite Hs. }
    destruct (lookup_lt_is_Some_2 prefs i) as [p Hp].
    { apply Hcat, list_elem_of_here. }
    assert (map_from sessions prefs idx (Some i :: remaining) mappings
            = map_from sessions prefs (S idx) remaining
                (mappings +:+ format_row s p)) as ->.
    { cbn [map_from]. unfold index. by rewrite Hs, Hp. }
    assert (in_catalog prefs remaining) as Hcat'.
    { intros j Hj. by apply Hcat, list_elem_of_further. }
    specialize (IH (S idx) (mappings +:+ format_row s p) ltac:(lia) Hcat').
    destruct (decide (Forall is_Some remaining)) as [Hall|Hall].
    + rewrite decide_True by (constructor; [by eexists|done]).
      destruct IH as (rows & -> & Hrows & Hrow).
      exists (format_row s p :: rows). split_and!.
      * simpl. by rewrite append_assoc.
      * simpl. by rewrite Hrows.
      * intros [|k] j Hk; simpl in Hk.
        -- injection Hk as <-. exists s, p.
           by rewrite Nat.add_0_r.
        -- destruct (Hrow k j Hk) as (s' & p' & Hs' & Hp' & Hr).
           exists s', p'. by rewrite <-Nat.add_succ_comm.
    + rewrite decide_False; [done|].
      by intros [_ ?]%Forall_cons.
Qed.

(** X15.  The projection of a candidate over the two catalogs returns
    one row per session, in order, each made of the session and of the
    preference assigned to it, when every session is filled; as soon as
    one is unfilled it raises instead (a list is indexed with [None]). *)
Theorem projection_rows_or_failure (sessions : list Session.t)
    (prefs : list InstructorPref.t) (c : candidate) :
  (length c ≤ length sessions)%nat →
  in_catalog prefs c →
  if decide (Forall is_Some c) then
    ∃ rows,
      map_assignments sessions prefs (Some c) = Ok (join_rows rows)
      ∧ length rows = length c
      ∧ ∀ k i, c !! k = Some (Some i) →
          ∃ s p, sessions !! k = Some s ∧ prefs !! i = Some p
                 ∧ rows !! k = Some (format_row s p)
  else map_assignments sessions prefs (Some c) = Raise TypeError_none_index.
Proof.
  intros Hlen Hcat.
  exact (map_from_spec sessions prefs c 0 "" ltac:(simpl; lia) Hcat).
Qed.

(** ** Generation and search over a random source, further *)

Section WithShuffleFurther.

Variable rng : Type.
Variable shuffle : list nat -> rng -> list nat * rng.

(** [random.shuffle] rearranges the list it is given. *)
Hypothesis shuffle_permutation : ∀ l g, (shuffle l g).1 ≡ₚ l.

(** X10.  First fit.  Each session gets the first preference, in the
    shuffled order of the call, that is eligible for it and not taken by
    an earlier session of the candidate; it is left unfilled only when no
    preference of the catalog is available to it. *)
Theorem generation_first_fit (sessions : list Session.t)
    (prefs : list InstructorPref.t) (replicates : Z) (g : rng) :
  ∃ c g',
    calculate_session_assignments rng shuffle sessions prefs replicates g
    = Ok (c, g')
    ∧ ∀ k s, sessions !! k = Some s →
        ∃ entry,
          c !! k = Some entry
          ∧ match entry with
            | Some idx =>
                ∃ before after,
                  (shuffle (seq 0 (length prefs)) g).1
                  = (before ++ idx :: after)%list
                  ∧ available prefs s (take k c) idx
                  ∧ ∀ j, j ∈ before → ¬ available prefs s (take k c) j
            | None => ∀ j, ¬ available prefs s (take k c) j
            end.
Proof.
  destruct (calculate_session_assignments_spec rng shuffle shuffle_permutation
              sessions prefs replicates g) as (c & Hc & _ & _).
  exists c, (shuffle (seq 0 (length prefs)) g).2. split; [done|].
  revert Hc. unfold calculate_session_assignments.
  pose proof (shuffle_permutation (seq 0 (length prefs)) g) as Hperm.
  destruct (shuffle (seq 0 (length prefs)) g) as [indices g1]. simpl in *.
  destruct (assign_sessions prefs indices sessions []) as [c'|e] eqn:Hassign;
    [|done].
  simpl. intros [= ->].
  apply assign_sessions_entries in Hassign as (entries & -> & Hentries).
  simpl. intros k s Hs.
  destruct (Hentries k s Hs) as (entry & Hentry & Hscan). simpl in Hscan.
  exists entry. split; [done|].
  apply scan_instructor_prefs_first_fit in Hscan.
  destruct entry as [idx|]; [done|].
  intros j Hj. apply (Hscan j); [|done].
  destruct Hj as [(p & Hp & _) _].
  rewrite Hperm. apply elem_of_seq. apply lookup_lt_Some in Hp. lia.
Qed.

(** X11.  A generated candidate has one entry per session and fills at
    most as many of them as the catalog has preferences; with an empty
    catalog every session is unfilled. *)
Theorem generation_filled_bound (sessions : list Session.t)
    (prefs : list InstructorPref.t) (replicates : Z) (g : rng) :
  ∃ c g',
    calculate_session_assignments rng shuffle sessions prefs replicates g
    = Ok (c, g')
    ∧ length c = length sessions
    ∧ (length (filled c) ≤ length prefs)%nat
    ∧ (prefs = [] → c = replicate (length sessions) None).
Proof.
  destruct (calculate_session_assignments_spec rng shuffle shuffle_permutation
              sessions prefs replicates g) as (c & Hc & HF & HN).
  pose proof (entry_for_in_catalog _ _ _ HF) as Hcat.
  pose proof (Forall2_length _ _ _ HF) as Hlen.
  exists c, (shuffle (seq 0 (length prefs)) g).2.
  split_and!; [done|done|by apply filled_length_catalog|].
  intros ->. rewrite Hlen. by apply in_catalog_empty.
Qed.

(** One epoch, with what the generator guarantees of its candidate. *)
Lemma epoch_generated (sessions : list Session.t)
    (prefs : list InstructorPref.t) (replicates : Z) (b : best) (g : rng) :
  ∃ c s g',
    calculate_session_assignments rng shuffle sessions prefs replicates g
    = Ok (c, g')
    ∧ candidate_score prefs c = Ok s
    ∧ Forall2 (entry_for prefs) sessions c
    ∧ epoch rng shuffle sessions prefs replicates b g
      = Ok (if (s >? b.2) || bool_decide (b.1 = None)
            then (Some c, s) else b, g').
Proof.
  destruct (epoch_spec rng shuffle shuffle_permutation sessions prefs
              replicates b g) as (c & s & g' & Hc & Hs & Hepoch).
  destruct (calculate_session_assignments_spec rng shuffle shuffle_permutation
              sessions prefs replicates g) as (c' & Hc' & HF & _).
  rewrite Hc in Hc'. injection Hc' as <- _.
  by exists c, s, g'.
Qed.

(** After the first epoch the retained candidate is one the generator
    returned, the retained score is its score, and no candidate
    generated so far scores higher. *)
Lemma epochs_from_best_invariant (sessions : list Session.t)
    (prefs : list InstructorPref.t) (replicates : Z) (n : nat) (g : rng) :
  ∃ c s g',
    epochs_from rng shuffle sessions prefs replicates (S n) initial_best g
    = Ok ((Some c, s), g')
    ∧ candidate_score prefs c = Ok s
    ∧ Forall2 (entry_for prefs) sessions c
    ∧ (∃ k bk gk gk',
         (k ≤ n)%nat
         ∧ epochs_from rng shuffle sessions prefs replicates k initial_best g
           = Ok (bk, gk)
         ∧ calculate_session_assignments rng shuffle sessions prefs
             replicates gk = Ok (c, gk'))
    ∧ (∀ k, (k ≤ n)%nat →
         ∃ bk gk ck sk gk',
           epochs_from rng shuffle sessions prefs replicates k initial_best g
           = Ok (bk, gk)
           ∧ calculate_session_assignments rng shuffle sessions prefs
               replicates gk = Ok (ck, gk')
           ∧ candidate_score prefs ck = Ok sk
           ∧ sk ≤ s).
Proof.
  induction n as [|n IH].
  - destruct (epoch_generated sessions prefs replicates initial_best g)
      as (c & s & g1 & Hc & Hs & HF & Hepoch).
    exists c, s, g1. cbn [epochs_from]. rewrite Hepoch.
    cbn [mbind result_bind bind]. rewrite orb_true_r.
    split_and!; [done|done|done| |].
    + exists 0%nat, initial_best, g, g1. done.
    + intros k Hk. assert (k = 0%nat) as -> by lia.
      exists initial_best, g, c, s, g1. split_and!; [done|done|done|lia].
  - destruct IH as (c & s & gn & Hrun & Hs & HF & Hfrom & Hmax).
    destruct (epoch_generated sessions prefs replicates (Some c, s) gn)
      as (c' & s' & g' & Hc' & Hs' & HF' & Hepoch).
    rewrite (epochs_from_last rng shuffle), Hrun.
    cbn [mbind result_bind bind]. rewrite Hepoch.
    rewrite bool_decide_eq_false_2, orb_false_r by done. simpl.
    destruct (Z.gtb_spec s' s) as [Hgt|Hle].
    + exists c', s', g'. split_and!; [done|done|done| |].
      * exists (S n), (Some c, s), gn, g'. done.
      * intros k Hk. destruct (decide (k = S n)) as [->|Hne].
        -- exists (Some c, s), gn, c', s', g'. split_and!; [done..|lia].
        -- destruct (Hmax k ltac:(lia)) as (bk & gk & ck & sk & gk' & ? & ? & ? & ?).
           exists bk, gk, ck, sk, gk'. split_and!; [done..|lia].
    + exists c, s, g'. split_and!; [done|done|done| |].
      * destruct Hfrom as (k & bk & gk & gk' & ? & ? & ?).
        exists k, bk, gk, gk'. split_and!; [lia|done|done].
      * intros k Hk. destruct (decide (k = S n)) as [->|Hne].
        -- exists (Some c, s), gn, c', s', g'. split_and!; [done..|lia].
        -- by apply Hmax; lia.
Qed.

(** X13.  After one epoch or more the retained best is a candidate the
    generator returned in one of the epochs run, with one entry per
    session, and the retained score is the score of that candidate. *)
Theorem retained_best_is_generated (sessions : list Session.t)
    (prefs : list InstructorPref.t) (replicates epochs : Z) (g : rng) :
  1 ≤ epochs →
  ∃ c s g',
    search rng shuffle sessions prefs replicates epochs g
    = Ok ((Some c, s), g')
    ∧ candidate_score prefs c = Ok s
    ∧ length c = length sessions
    ∧ ∃ k bk gk gk',
        0 ≤ k < epochs
        ∧ search rng shuffle sessions prefs replicates k g = Ok (bk, gk)
        ∧ calculate_session_assignments rng shuffle sessions prefs
            replicates gk = Ok (c, gk').
Proof.
  intros Hepochs. unfold search.
  replace (Z.to_nat epochs) with (S (Z.to_nat (epochs - 1))) by lia.
  destruct (epochs_from_best_invariant sessions prefs replicates
              (Z.to_nat (epochs - 1)) g)
    as (c & s & g' & Hrun & Hs & HF & (k & bk & gk & gk' & Hk & Hrunk & Hgen) & _).
  exists c, s, g'. split_and!; [done|done|by rewrite (Forall2_length _ _ _ HF)|].
  exists (Z.of_nat k), bk, gk, gk'. rewrite Nat2Z.id.
  split_and!; [lia|lia|done|done].
Qed.

(** X14.  After one epoch or more the retained score is the highest
    score among the candidates generated: the candidate of every epoch
    run so far scores no more than it. *)
Theorem retained_score_is_maximum (sessions : list Session.t)
    (prefs : list InstructorPref.t) (replicates epochs k : Z) (g : rng) :
  0 ≤ k < epochs →
  ∃ b g' bk gk ck sk gk',
    search rng shuffle sessions prefs replicates epochs g = Ok (b, g')
    ∧ search rng shuffle sessions prefs replicates k g = Ok (bk, gk)
    ∧ calculate_session_assignments rng shuffle sessions prefs
        replicates gk = Ok (ck, gk')
    ∧ candidate_score prefs ck = Ok sk
    ∧ sk ≤ b.2.
Proof.
  intros Hk. unfold search.
  replace (Z.to_nat epochs) with (S (Z.to_nat (epochs - 1))) by lia.
  destruct (epochs_from_best_invariant sessions prefs replicates
              (Z.to_nat (epochs - 1)) g)
    as (c & s & g' & Hrun & _ & _ & _ & Hmax).
  destruct (Hmax (Z.to_nat k) ltac:(lia))
    as (bk & gk & ck & sk & gk' & Hrunk & Hgen & Hsk & Hle).
  exists (Some c, s), g', bk, gk, ck, sk, gk'. done.
Qed.



(** X18.  When the preference catalog comes out empty and the session
    catalog does not, a run of one epoch or more leaves every session
    unfilled, and [scheduler] raises at the projection and writes
    nothing. *)
Theorem scheduler_without_preferences (epochs replicates max_attempts : Z)
    (session_file instructor_pref_file output_path : string)
    (verbose : bool) (fs : files) (g : rng) :
  1 ≤ epochs →
  parse_inputINSTRUCTOR_PREF_text fs instructor_pref_file = [] →
  parse_inputSESSION_text fs session_file ≠ [] →
  scheduler rng shuffle epochs replicates max_attempts session_file
    instructor_pref_file output_path verbose fs g
  = Raise TypeError_none_index.
Proof.
  intros Hepochs Hnone Hsome. unfold scheduler, search. rewrite Hnone.
  replace (Z.to_nat epochs) with (S (Z.to_nat (epochs - 1))) by lia.
  destruct (epochs_from_best_invariant (parse_inputSESSION_text fs session_file)
              [] replicates (Z.to_nat (epochs - 1)) g)
    as (c & s & g' & Hrun & _ & HF & _ & _).
  rewrite Hrun. cbn [mbind result_bind bind fst].
  pose proof (Forall2_length _ _ _ HF) as Hlen.
  pose proof (in_catalog_empty c (entry_for_in_catalog _ _ _ HF)) as Hc.
  destruct (parse_inputSESSION_text fs session_file) as [|s0 ss]; [done|].
  destruct c as [|entry c]; [done|]. simpl in Hc. injection Hc as -> _.
  reflexivity.
Qed.

(** X19.  A negative epoch count is an empty range: like 0, it leaves
    nothing retained and [scheduler] raises at the projection. *)
Theorem scheduler_nonpositive_epochs (epochs replicates max_attempts : Z)
    (session_file instructor_pref_file output_path : string)
    (verbose : bool) (fs : files) (g : rng) :
  epochs ≤ 0 →
  search rng shuffle (parse_inputSESSION_text fs session_file)
    (parse_inputINSTRUCTOR_PREF_text fs instructor_pref_file)
    replicates epochs g = Ok (initial_best, g)
  ∧ scheduler rng shuffle epochs replicates max_attempts session_file
      instructor_pref_file output_path verbose fs g
    = Raise TypeError_none_iter.
Proof.
  intros Hepochs. unfold scheduler, search.
  replace (Z.to_nat epochs) with 0%nat by lia. done.
Qed.

(** X20.  Over loaded catalogs, a filled entry of a generated candidate
    pairs a session with a preference of the same weekday, whitespace
    aside, and of the same 24-hour start hour. *)
Theorem assignments_pair_same_day_and_hour (fs : files)
    (session_file instructor_pref_file : string) (replicates : Z) (g : rng) :
  ∃ c g',
    calculate_session_assignments rng shuffle
      (parse_inputSESSION_text fs session_file)
      (parse_inputINSTRUCTOR_PREF_text fs instructor_pref_file)
      replicates g = Ok (c, g')
    ∧ ∀ k i, c !! k = Some (Some i) →
        ∃ s p hour period hour' period',
          parse_inputSESSION_text fs session_file !! k = Some s
          ∧ parse_inputINSTRUCTOR_PREF_text fs instructor_pref_file !! i
            = Some p
          ∧ parse_time_code (Session.start_time_code s) = Ok (hour, period)
          ∧ parse_time_code (InstructorPref.start_time_code p)
            = Ok (hour', period')
          ∧ to_24_hour hour period = to_24_hour hour' period'
          ∧ strip (Session.week_day s) = strip (InstructorPref.week_day p).
Proof.
  destruct (calculate_session_assignments_spec rng shuffle shuffle_permutation
              (parse_inputSESSION_text fs session_file)
              (parse_inputINSTRUCTOR_PREF_text fs instructor_pref_file)
              replicates g) as (c & Hc & HF & _).
  eexists c, _. split; [done|]. intros k i Hk.
  destruct (Forall2_lookup_r _ _ _ _ _ HF Hk) as (s & Hs & (p & Hp & Hcode & _)).
  pose proof (loaded_session_slot_code fs session_file s
                (list_elem_of_lookup_2 _ _ _ Hs)) as Hs_code.
  pose proof (loaded_instructor_pref_slot_code fs instructor_pref_file p
                (list_elem_of_lookup_2 _ _ _ Hp)) as Hp_code.
  destruct (remap_time_code_Ok_inv _ _ _ Hs_code)
    as (hour & period & Hparse & _).
  destruct (remap_time_code_Ok_inv _ _ _ Hp_code)
    as (hour' & period' & Hparse' & _).
  exists s, p, hour, period, hour', period'.
  rewrite <-Hcode in Hs_code.
  destruct (remap_time_code_same_code _ _ _ _ _ _ _ _ _
              Hparse Hparse' Hs_code Hp_code) as [Hday Hhour].
  done.
Qed.

(** X21.  After one epoch or more the retained score lies between -5
    times the number of sessions and twice that number less one. *)
Theorem retained_score_bounds (sessions : list Session.t)
    (prefs : list InstructorPref.t) (replicates epochs : Z) (g : rng) :
  1 ≤ epochs →
  ∃ b g',
    search rng shuffle sessions prefs replicates epochs g = Ok (b, g')
    ∧ -5 * Z.of_nat (length sessions) ≤ b.2
      ≤ 2 * Z.of_nat (length sessions - 1).
Proof.
  intros Hepochs. unfold search.
  replace (Z.to_nat epochs) with (S (Z.to_nat (epochs - 1))) by lia.
  destruct (epochs_from_best_invariant sessions prefs replicates
              (Z.to_nat (epochs - 1)) g)
    as (c & s & g' & Hrun & Hs & HF & _ & _).
  exists (Some c, s), g'. split; [done|]. simpl.
  rewrite (candidate_score_sum prefs c (entry_for_in_catalog _ _ _ HF)) in Hs.
  injection Hs as <-.
  pose proof (Forall2_length _ _ _ HF) as Hlen.
  pose proof (unfilled_count_length c).
  pose proof (rewarded_count_length prefs c).
  lia.
Qed.

End WithShuffleFurther.

(** ** The further properties at concrete inputs *)

Lemma example_files_loaded :
  parse_inputSESSION_text example_files "sessions.txt" = [monday_9; monday_10]
  ∧ parse_inputINSTRUCTOR_PREF_text example_files "prefs.txt"
    = [pref_a_10; pref_a_9]
  ∧ parse_inputSESSION_text example_files "nowhere.txt" = [].
Proof. split_and!; reflexivity. Qed.

Lemma slot_codes_equal_iff_witness :
  parse_time_code "9:00 AM" = Ok (9, "AM")
  ∧ parse_time_code "9:30 AM" = Ok (9, "AM")
  ∧ remap_time_code "9:00 AM" " Monday" = Ok "0_2"
  ∧ remap_time_code "9:30 AM" "Monday" = Ok "0_2"
  ∧ ("0_2" = "0_2"
     ↔ strip " Monday" = strip "Monday"
       ∧ to_24_hour 9 "AM" = to_24_hour 9 "AM").
Proof.
  split_and!; [reflexivity..|].
  apply (slot_codes_equal_iff "9:00 AM" " Monday" "9:30 AM" "Monday"
           9 9 "AM" "AM" "0_2" "0_2"); reflexivity.
Defined.

Lemma twelve_hour_clock_offsets_witness :
  parse_time_code "7:00 PM" = Ok (7, "PM")
  ∧ 1 ≤ 7 ≤ 12
  ∧ ("PM" = "AM" ∨ "PM" = "PM")
  ∧ days_mapping_get (strip "Monday") ≠ -1
  ∧ remap_time_code "7:00 PM" "Monday"
    = let d := days_mapping_get (strip "Monday") in
      if String.eqb "PM" "AM" then
        if (7 <=? 7) && (7 <=? 11) then Ok (format_code d (7 - 7))
        else Raise ValueError_time_range
      else
        if 7 =? 12 then Ok (format_code d 5)
        else if 7 <=? 7 then Ok (format_code d (7 + 5))
        else Raise ValueError_time_range.
Proof.
  assert (days_mapping_get (strip "Monday") ≠ -1) as Hd by (vm_compute; lia).
  split_and!; [reflexivity|lia|lia|by right|exact Hd|].
  apply (twelve_hour_clock_offsets "7:00 PM" "Monday" 7 "PM");
    [reflexivity|lia|by right|exact Hd].
Defined.

Lemma time_code_minutes_ignored_witness :
  has_char " " "9" = false ∧ has_char ":" "9" = false
  ∧ has_char " " "00" = false ∧ has_char " " "30" = false
  ∧ has_char " " "AM" = false
  ∧ parse_time_code ("9" +:+ ":" +:+ "00" +:+ " " +:+ "AM")
    = (h ← int "9"; Ok (h, "AM"))
  ∧ remap_time_code ("9" +:+ ":" +:+ "00" +:+ " " +:+ "AM") "Monday"
    = remap_time_code ("9" +:+ ":" +:+ "30" +:+ " " +:+ "AM") "Monday".
Proof.
  split_and!; [reflexivity..| |];
    apply (time_code_minutes_ignored "9" "00" "30" "AM" "Monday");
    reflexivity.
Defined.

Lemma week_day_padding_ignored_witness :
  all_space "  " = true ∧ all_space newline = true
  ∧ remap_time_code "9:00 AM" ("  " +:+ "Monday" +:+ newline)
    = remap_time_code "9:00 AM" "Monday".
Proof.
  split_and!; [reflexivity..|].
  apply (week_day_padding_ignored "9:00 AM" "  " "Monday" newline);
    reflexivity.
Defined.

Lemma loading_stops_at_unreadable_line_witness :
  session_line_fails "Monday 9:00 AM - 10:00 AM"
  ∧ session_lines
      (["Monday" +:+ tab +:+ "9:00 AM - 10:00 AM"]
       ++ "Monday 9:00 AM - 10:00 AM"
          :: ["Monday" +:+ tab +:+ "10:00 AM - 11:00 AM"]) []
    = session_lines ["Monday" +:+ tab +:+ "9:00 AM - 10:00 AM"] []
  ∧ instructor_pref_line_fails ("I1" +:+ tab +:+ "Monday")
  ∧ instructor_pref_lines
      ([] ++ ("I1" +:+ tab +:+ "Monday")
          :: ["I1" +:+ tab +:+ "A" +:+ tab +:+ "Monday" +:+ tab
              +:+ "9:00 AM - 10:00 AM"]) []
    = instructor_pref_lines [] [].
Proof.
  assert (session_line_fails "Monday 9:00 AM - 10:00 AM") as Hs.
  { split; [done|]. by exists ValueError_unpack. }
  assert (instructor_pref_line_fails ("I1" +:+ tab +:+ "Monday")) as Hp.
  { split; [done|]. by exists ValueError_unpack. }
  split_and!; [exact Hs| |exact Hp|].
  - exact (proj1 loading_stops_at_unreadable_line _ _ _ _ Hs).
  - exact (proj2 loading_stops_at_unreadable_line _ _ _ _ Hp).
Defined.

Lemma loading_readable_lines_witness :
  Forall (λ line, ¬ session_line_fails line)
    ["Monday" +:+ tab +:+ "9:00 AM - 10:00 AM" +:+ newline; newline]
  ∧ session_lines
      ["Monday" +:+ tab +:+ "9:00 AM - 10:00 AM" +:+ newline; newline] []
    = omap session_record
        ["Monday" +:+ tab +:+ "9:00 AM - 10:00 AM" +:+ newline; newline]
  ∧ Forall (λ line, ¬ instructor_pref_line_fails line) [newline]
  ∧ instructor_pref_lines [newline] [] = omap instructor_pref_record [newline].
Proof.
  assert (Forall (λ line, ¬ session_line_fails line)
            ["Monday" +:+ tab +:+ "9:00 AM - 10:00 AM" +:+ newline; newline])
    as Hs.
  { repeat constructor.
    - intros [_ [e He]]. vm_compute in He. discriminate He.
    - intros [Hblank _]. by apply Hblank. }
  assert (Forall (λ line, ¬ instructor_pref_line_fails line) [newline]) as Hp.
  { repeat constructor. intros [Hblank _]. by apply Hblank. }
  split_and!; [exact Hs| |exact Hp|].
  - exact (proj1 loading_readable_lines _ Hs).
  - exact (proj2 loading_readable_lines _ Hp).
Defined.

Lemma loaded_records_carry_their_slot_code_witness :
  monday_9 ∈ parse_inputSESSION_text example_files "sessions.txt"
  ∧ remap_time_code (Session.start_time_code monday_9)
      (Session.week_day monday_9)
    = Ok (Session.encoded_start_time_code monday_9)
  ∧ pref_a_10 ∈ parse_inputINSTRUCTOR_PREF_text example_files "prefs.txt"
  ∧ remap_time_code (InstructorPref.start_time_code pref_a_10)
      (InstructorPref.week_day pref_a_10)
    = Ok (InstructorPref.encoded_start_time_code pref_a_10).
Proof.
  assert (monday_9 ∈ parse_inputSESSION_text example_files "sessions.txt")
    as Hs by apply list_elem_of_here.
  assert (pref_a_10 ∈ parse_inputINSTRUCTOR_PREF_text example_files "prefs.txt")
    as Hp by apply list_elem_of_here.
  split_and!; [exact Hs| |exact Hp|].
  - exact (proj1 (loaded_records_carry_their_slot_code example_files
                    "sessions.txt") _ Hs).
  - exact (proj2 (loaded_records_carry_their_slot_code example_files
                    "prefs.txt") _ Hp).
Defined.

Lemma loaded_instructor_prefs_have_uid_witness :
  pref_a_9 ∈ parse_inputINSTRUCTOR_PREF_text example_files "prefs.txt"
  ∧ InstructorPref.uid pref_a_9 ≠ "".
Proof.
  assert (pref_a_9 ∈ parse_inputINSTRUCTOR_PREF_text example_files "prefs.txt")
    as Hp by apply list_elem_of_further, list_elem_of_here.
  split; [exact Hp|].
  exact (loaded_instructor_prefs_have_uid example_files "prefs.txt" _ Hp).
Defined.

Lemma well_formed_lines_are_read_witness :
  starts_line "Monday" = true ∧ plain_field "Monday" = true
  ∧ clock_field "9:00 AM" = true ∧ clock_field "10:00 AM" = true
  ∧ ends_line "10:00 AM" = true ∧ all_space newline = true
  ∧ session_lines
      (("Monday" +:+ tab +:+ "9:00 AM" +:+ " - " +:+ "10:00 AM" +:+ newline)
       :: []) []
    = match Session.init "Monday" "9:00 AM" "10:00 AM" with
      | Ok s => session_lines [] ([] ++ [s])
      | Raise _ => []
      end
  ∧ starts_line "I1" = true ∧ plain_field "I1" = true
  ∧ plain_field "A" = true
  ∧ instructor_pref_lines
      (("I1" +:+ tab +:+ "A" +:+ tab +:+ "Monday" +:+ tab
        +:+ "9:00 AM" +:+ " - " +:+ "10:00 AM" +:+ newline) :: []) []
    = match InstructorPref.init "I1" "A" "Monday" "9:00 AM" "10:00 AM" with
      | Ok p => instructor_pref_lines [] ([] ++ [p])
      | Raise _ => []
      end.
Proof.
  split_and!.
  1-6: reflexivity.
  2-4: reflexivity.
  - apply (proj1 well_formed_lines_are_read
             "Monday" "9:00 AM" "10:00 AM" newline [] []); reflexivity.
  - apply (proj2 well_formed_lines_are_read
             "I1" "A" "Monday" "9:00 AM" "10:00 AM" newline [] []);
      reflexivity.
Defined.

Lemma candidate_score_bounds_witness :
  in_catalog [pref_a_9; pref_a_10] [Some 0%nat; Some 1%nat; None]
  ∧ ∃ score,
      candidate_score [pref_a_9; pref_a_10] [Some 0%nat; Some 1%nat; None]
      = Ok score
      ∧ -5 * Z.of_nat (length [Some 0%nat; Some 1%nat; @None nat]) ≤ score
        ≤ 2 * Z.of_nat (length [Some 0%nat; Some 1%nat; @None nat] - 1)
      ∧ ([Some 0%nat; Some 1%nat; None] = [] → score = 0).
Proof.
  assert (in_catalog [pref_a_9; pref_a_10] [Some 0%nat; Some 1%nat; None])
    as Hcat.
  { intros i Hi.
    repeat (apply elem_of_cons in Hi as [Hi|Hi];
            [inversion Hi; simpl; lia|]).
    by apply elem_of_nil in Hi. }
  split; [exact Hcat|].
  exact (candidate_score_bounds [pref_a_9; pref_a_10]
           [Some 0%nat; Some 1%nat; None] Hcat).
Defined.

Lemma projection_rows_or_failure_witness :
  (length [Some 1%nat; Some 0%nat] ≤ length [monday_9; monday_10])%nat
  ∧ in_catalog [pref_a_10; pref_a_9] [Some 1%nat; Some 0%nat]
  ∧ if decide (Forall is_Some [Some 1%nat; Some 0%nat]) then
      ∃ rows,
        map_assignments [monday_9; monday_10] [pref_a_10; pref_a_9]
          (Some [Some 1%nat; Some 0%nat]) = Ok (join_rows rows)
        ∧ length rows = length [Some 1%nat; Some 0%nat]
        ∧ ∀ k i, [Some 1%nat; Some 0%nat] !! k = Some (Some i) →
            ∃ s p, [monday_9; monday_10] !! k = Some s
                   ∧ [pref_a_10; pref_a_9] !! i = Some p
                   ∧ rows !! k = Some (format_row s p)
    else map_assignments [monday_9; monday_10] [pref_a_10; pref_a_9]
           (Some [Some 1%nat; Some 0%nat]) = Raise TypeError_none_index.
Proof.
  assert (in_catalog [pref_a_10; pref_a_9] [Some 1%nat; Some 0%nat]) as Hcat.
  { intros i Hi.
    repeat (apply elem_of_cons in Hi as [Hi|Hi];
            [inversion Hi; simpl; lia|]).
    by apply elem_of_nil in Hi. }
  split_and!; [simpl; lia|exact Hcat|].
  apply (projection_rows_or_failure [monday_9; monday_10]
           [pref_a_10; pref_a_9] [Some 1%nat; Some 0%nat]);
    [simpl; lia|exact Hcat].
Defined.

Lemma generation_first_fit_witness :
  (∀ l g, (reverse_order l g).1 ≡ₚ l)
  ∧ ∃ c g',
      calculate_session_assignments nat reverse_order [monday_9; monday_9]
        [pref_a_9; pref_a_10; pref_b_9] 5 0%nat = Ok (c, g')
      ∧ ∀ k s, [monday_9; monday_9] !! k = Some s →
          ∃ entry,
            c !! k = Some entry
            ∧ match entry with
              | Some idx =>
                  ∃ before after,
                    (reverse_order
                       (seq 0 (length [pref_a_9; pref_a_10; pref_b_9]))
                       0%nat).1
                    = (before ++ idx :: after)%list
                    ∧ available [pref_a_9; pref_a_10; pref_b_9] s (take k c) idx
                    ∧ ∀ j, j ∈ before →
                        ¬ available [pref_a_9; pref_a_10; pref_b_9] s
                            (take k c) j
              | None =>
                  ∀ j, ¬ available [pref_a_9; pref_a_10; pref_b_9] s
                           (take k c) j
              end.
Proof.
  assert (∀ l g, (reverse_order l g).1 ≡ₚ l) as Hrev
    by (intros; apply reverse_Permutation).
  split; [exact Hrev|].
  exact (generation_first_fit nat reverse_order Hrev [monday_9; monday_9]
           [pref_a_9; pref_a_10; pref_b_9] 5 0%nat).
Defined.

Lemma generation_filled_bound_witness :
  (∀ l g, (keep_order l g).1 ≡ₚ l)
  ∧ ∃ c g',
      calculate_session_assignments unit keep_order
        [monday_9; monday_9; monday_10] [pref_a_9] 5 tt = Ok (c, g')
      ∧ length c = length [monday_9; monday_9; monday_10]
      ∧ (length (filled c) ≤ length [pref_a_9])%nat
      ∧ ([pref_a_9] = [] →
         c = replicate (length [monday_9; monday_9; monday_10]) None).
Proof.
  assert (∀ l g, (keep_order l g).1 ≡ₚ l) as Hkeep by (intros; reflexivity).
  split; [exact Hkeep|].
  exact (generation_filled_bound unit keep_order Hkeep
           [monday_9; monday_9; monday_10] [pref_a_9] 5 tt).
Defined.

Lemma retained_best_is_generated_witness :
  (∀ l g, (reverse_order l g).1 ≡ₚ l) ∧ 1 ≤ 3
  ∧ ∃ c s g',
      search nat reverse_order [monday_9; monday_10] [pref_b_9; pref_a_9] 5 3
        0%nat = Ok ((Some c, s), g')
      ∧ candidate_score [pref_b_9; pref_a_9] c = Ok s
      ∧ length c = length [monday_9; monday_10]
      ∧ ∃ k bk gk gk',
          0 ≤ k < 3
          ∧ search nat reverse_order [monday_9; monday_10]
              [pref_b_9; pref_a_9] 5 k 0%nat = Ok (bk, gk)
          ∧ calculate_session_assignments nat reverse_order
              [monday_9; monday_10] [pref_b_9; pref_a_9] 5 gk = Ok (c, gk').
Proof.
  assert (∀ l g, (reverse_order l g).1 ≡ₚ l) as Hrev
    by (intros; apply reverse_Permutation).
  split_and!; [exact Hrev|lia|].
  apply (retained_best_is_generated nat reverse_order Hrev
           [monday_9; monday_10] [pref_b_9; pref_a_9] 5 3 0%nat). lia.
Defined.

Lemma retained_score_is_maximum_witness :
  (∀ l g, (reverse_order l g).1 ≡ₚ l) ∧ 0 ≤ 1 < 3
  ∧ ∃ b g' bk gk ck sk gk',
      search nat reverse_order [monday_9; monday_10] [pref_b_9; pref_a_9] 5 3
        0%nat = Ok (b, g')
      ∧ search nat reverse_order [monday_9; monday_10] [pref_b_9; pref_a_9]
          5 1 0%nat = Ok (bk, gk)
      ∧ calculate_session_assignments nat reverse_order
          [monday_9; monday_10] [pref_b_9; pref_a_9] 5 gk = Ok (ck, gk')
      ∧ candidate_score [pref_b_9; pref_a_9] ck = Ok sk
      ∧ sk ≤ b.2.
Proof.
  assert (∀ l g, (reverse_order l g).1 ≡ₚ l) as Hrev
    by (intros; apply reverse_Permutation).
  split_and!; [exact Hrev|lia|lia|].
  apply (retained_score_is_maximum nat reverse_order Hrev
           [monday_9; monday_10] [pref_b_9; pref_a_9] 5 3 1 0%nat). lia.
Defined.

Lemma retained_score_bounds_witness :
  (∀ l g, (keep_order l g).1 ≡ₚ l) ∧ 1 ≤ 2
  ∧ ∃ b g',
      search unit keep_order [monday_9; monday_10] [pref_a_9] 5 2 tt
      = Ok (b, g')
      ∧ -5 * Z.of_nat (length [monday_9; monday_10]) ≤ b.2
        ≤ 2 * Z.of_nat (length [monday_9; monday_10] - 1).
Proof.
  assert (∀ l g, (keep_order l g).1 ≡ₚ l) as Hkeep by (intros; reflexivity).
  split_and!; [exact Hkeep|lia|].
  apply (retained_score_bounds unit keep_order Hkeep
           [monday_9; monday_10] [pref_a_9] 5 2 tt). lia.
Defined.



Lemma scheduler_without_preferences_witness :
  (∀ l g, (keep_order l g).1 ≡ₚ l) ∧ 1 ≤ 2
  ∧ parse_inputINSTRUCTOR_PREF_text example_files "nowhere.txt" = []
  ∧ parse_inputSESSION_text example_files "sessions.txt" ≠ []
  ∧ scheduler unit keep_order 2 5 3 "sessions.txt" "nowhere.txt" "./" false
      example_files tt = Raise TypeError_none_index.
Proof.
  assert (∀ l g, (keep_order l g).1 ≡ₚ l) as Hkeep by (intros; reflexivity).
  assert (parse_inputSESSION_text example_files "sessions.txt" ≠ []) as Hs
    by (vm_compute; discriminate).
  split_and!; [exact Hkeep|lia|reflexivity|exact Hs|].
  apply (scheduler_without_preferences unit keep_order Hkeep 2 5 3
           "sessions.txt" "nowhere.txt" "./" false example_files tt);
    [lia|reflexivity|exact Hs].
Defined.

Lemma scheduler_nonpositive_epochs_witness :
  -3 ≤ 0
  ∧ search unit keep_order
      (parse_inputSESSION_text example_files "sessions.txt")
      (parse_inputINSTRUCTOR_PREF_text example_files "prefs.txt")
      5 (-3) tt = Ok (initial_best, tt)
  ∧ scheduler unit keep_order (-3) 5 3 "sessions.txt" "prefs.txt" "./" false
      example_files tt = Raise TypeError_none_iter.
Proof.
  split; [lia|].
  apply (scheduler_nonpositive_epochs unit keep_order (-3) 5 3
           "sessions.txt" "prefs.txt" "./" false example_files tt). lia.
Defined.

Lemma assignments_pair_same_day_and_hour_witness :
  (∀ l g, (keep_order l g).1 ≡ₚ l)
  ∧ ∃ c g',
      calculate_session_assignments unit keep_order
        (parse_inputSESSION_text example_files "sessions.txt")
        (parse_inputINSTRUCTOR_PREF_text example_files "prefs.txt")
        5 tt = Ok (c, g')
      ∧ ∀ k i, c !! k = Some (Some i) →
          ∃ s p hour period hour' period',
            parse_inputSESSION_text example_files "sessions.txt" !! k = Some s
            ∧ parse_inputINSTRUCTOR_PREF_text example_files "prefs.txt" !! i
              = Some p
            ∧ parse_time_code (Session.start_time_code s) = Ok (hour, period)
            ∧ parse_time_code (InstructorPref.start_time_code p)
              = Ok (hour', period')
            ∧ to_24_hour hour period = to_24_hour hour' period'
            ∧ strip (Session.week_day s) = strip (InstructorPref.week_day p).
Proof.
  assert (∀ l g, (keep_order l g).1 ≡ₚ l) as Hkeep by (intros; reflexivity).
  split; [exact Hkeep|].
  exact (assignments_pair_same_day_and_hour unit keep_order Hkeep
           example_files "sessions.txt" "prefs.txt" 5 tt).
Defined.
